(** * A shallow embedding of the funding bot's risk calculator, position
      monitor and delta-neutral executor.

    Python floats are IEEE 754 binary64 values and are modelled by Rocq's
    primitive floats; Python ints are unbounded and are modelled by [Z].
    Decoded JSON messages keep their dynamic typing: a lookup, a conversion
    or an arithmetic operation that raises in Python returns [Raise] here. *)

From Stdlib Require Import ZArith List String Ascii Bool Lia Floats.
Import ListNotations.

Local Open Scope string_scope.
Local Open Scope Z_scope.
Set Warnings "-inexact-float".

(** ** Exceptions and results *)

Inductive exn :=
| KeyError | TypeError | ValueError | AttributeError
| OverflowError | ZeroDivisionError
| ExternalError.   (* raised by a collaborator: RPC, transaction, SDK *)

Inductive res (A : Type) :=
| Ok (a : A)
| Raise (e : exn).

Arguments Ok {A} a.
Arguments Raise {A} e.

Definition res_bind {A B} (r : res A) (k : A -> res B) : res B :=
  match r with
  | Ok a => k a
  | Raise e => Raise e
  end.

Declare Scope res_scope.
Delimit Scope res_scope with res.
Notation "'let?' x ':=' c 'in' k" := (res_bind c (fun x => k))
  (at level 10, x name, c at level 100, k at level 200) : res_scope.
Local Open Scope res_scope.

(** ** Python numbers *)

Module PyNum.

(** [float(z)] for an int: the nearest binary64 value, ties to even;
    OverflowError when the int is too large. *)
Definition float_of_int (z : Z) : res float :=
  let f := SF2Prim (binary_normalize prec emax z 0 false) in
  if PrimFloat.is_infinity f then Raise OverflowError else Ok f.

(** [a / b] on two ints (true division): the correctly rounded quotient. *)
Definition int_truediv (a b : Z) : res float :=
  match b, a with
  | Z0, _ => Raise ZeroDivisionError
  | Zpos _, Z0 => Ok PrimFloat.zero
  | Zneg _, Z0 => Ok PrimFloat.neg_zero
  | _, _ =>
      let sf (z : Z) := S754_finite (z <? 0) (Z.to_pos (Z.abs z)) 0 in
      let f := SF2Prim (SFdiv prec emax (sf a) (sf b)) in
      if PrimFloat.is_infinity f then Raise OverflowError else Ok f
  end.

(** [int(f)] for a float: truncation towards zero. *)
Definition int_of_float (f : float) : res Z :=
  match Prim2SF f with
  | S754_nan => Raise ValueError
  | S754_infinity _ => Raise OverflowError
  | S754_zero _ => Ok 0
  | S754_finite s m e =>
      let v := if 0 <=? e then Zpos m * 2 ^ e else Z.shiftr (Zpos m) (- e) in
      Ok (if s then - v else v)
  end.

(** The integer a float is exactly equal to, if any ([f == z] in Python
    compares the exact values). *)
Definition exact_int (f : float) : option Z :=
  match Prim2SF f with
  | S754_zero _ => Some 0
  | S754_finite s m e =>
      if 0 <=? e then Some (if s then - (Zpos m * 2 ^ e) else Zpos m * 2 ^ e)
      else if Zpos m mod 2 ^ (- e) =? 0
           then Some (if s then - (Zpos m / 2 ^ (- e)) else Zpos m / 2 ^ (- e))
           else None
  | _ => None
  end.

(** [round(f)] without a digit count: the nearest int, ties to even. *)
Definition round_to_int (f : float) : res Z :=
  match Prim2SF f with
  | S754_nan => Raise ValueError
  | S754_infinity _ => Raise OverflowError
  | S754_zero _ => Ok 0
  | S754_finite s m e =>
      let v :=
        if 0 <=? e then Zpos m * 2 ^ e
        else
          let d := 2 ^ (- e) in
          let q := Zpos m / d in
          match (2 * (Zpos m mod d) ?= d) with
          | Lt => q
          | Gt => q + 1
          | Eq => if Z.even q then q else q + 1
          end in
      Ok (if s then - v else v)
  end.

(** [float * int] and [float / int]: the int operand is converted first. *)
Definition mul_int (f : float) (z : Z) : res float :=
  let? zf := float_of_int z in Ok (f * zf)%float.

Definition div_int (f : float) (z : Z) : res float :=
  let? zf := float_of_int z in
  if (zf =? 0)%float then Raise ZeroDivisionError else Ok (f / zf)%float.

(** [a / b] on two floats: a zero divisor is a ZeroDivisionError. *)
Definition float_div (a b : float) : res float :=
  if (b =? 0)%float then Raise ZeroDivisionError else Ok (a / b)%float.

End PyNum.

(** ** Decoded JSON values

    What [json.loads] produces: [None], bools, ints, floats, strings, lists
    and dicts with string keys (entries in insertion order, keys unique). *)

#[warnings="-register-all"] Inductive json :=
| JNull
| JBool (b : bool)
| JInt (z : Z)
| JFloat (f : float)
| JStr (s : string)
| JList (l : list json)
| JDict (d : list (string * json)).

(** Library functions whose results the model takes as given: the parsing
    of numeric strings by [float] and [int], float exponentiation, [round]
    with a digit count, and the [Decimal] expression of the minimum-out
    guard. [None] and [Raise] stand for the exception the call raises. *)
Class PyBuiltins := {
  float_of_str : string -> option float;
  int_of_str : string -> option Z;
  float_pow : float -> Z -> res float;
  round_ndigits : float -> Z -> res float;
  decimal_min_out : Z -> float -> res Z
}.

Module Py.
Import PyNum.

Fixpoint assoc (k : string) (d : list (string * json)) : option json :=
  match d with
  | [] => None
  | (k', v) :: d' => if String.eqb k k' then Some v else assoc k d'
  end.

(** [bool(v)] *)
Definition truthy (v : json) : bool :=
  match v with
  | JNull => false
  | JBool b => b
  | JInt z => negb (z =? 0)
  | JFloat f => negb (f =? 0)%float
  | JStr s => negb (String.eqb s EmptyString)
  | JList l => match l with [] => false | _ => true end
  | JDict d => match d with [] => false | _ => true end
  end.

(** [v.get(k, default)] *)
Definition get (v : json) (k : string) (default : json) : res json :=
  match v with
  | JDict d => Ok (match assoc k d with Some x => x | None => default end)
  | _ => Raise AttributeError
  end.

(** [v[k]] with a string key *)
Definition item (v : json) (k : string) : res json :=
  match v with
  | JDict d => match assoc k d with Some x => Ok x | None => Raise KeyError end
  | _ => Raise TypeError
  end.

(** The elements a [for] loop over [v] visits. *)
Definition iter (v : json) : res (list json) :=
  match v with
  | JList l => Ok l
  | JDict d => Ok (map (fun kv => JStr (fst kv)) d)
  | JStr s => Ok (map (fun c => JStr (String c EmptyString)) (list_ascii_of_string s))
  | _ => Raise TypeError
  end.

Section Conversions.
Context `{PyBuiltins}.

(** [float(v)] *)
Definition to_float (v : json) : res float :=
  match v with
  | JFloat f => Ok f
  | JInt z => float_of_int z
  | JBool b => Ok (if b then 1 else 0)%float
  | JStr s => match float_of_str s with Some f => Ok f | None => Raise ValueError end
  | _ => Raise TypeError
  end.

(** [int(v)] *)
Definition to_int (v : json) : res Z :=
  match v with
  | JInt z => Ok z
  | JBool b => Ok (if b then 1 else 0)
  | JFloat f => int_of_float f
  | JStr s => match int_of_str s with Some z => Ok z | None => Raise ValueError end
  | _ => Raise TypeError
  end.

End Conversions.

(** *** Dicts keyed by decoded values

    Lists and dicts are unhashable. Keys are compared as Python compares
    them: numbers by value across bool, int and float, strings by content;
    a NaN key is equal to no key decoded separately from it. *)

Definition hashable (k : json) : bool :=
  match k with
  | JList _ | JDict _ => false
  | _ => true
  end.

Definition int_float_eqb (z : Z) (f : float) : bool :=
  match exact_int f with
  | Some z' => z =? z'
  | None => false
  end.

Definition key_eqb (a b : json) : bool :=
  let num (v : json) : option (Z + float) :=
    match v with
    | JBool x => Some (inl (if x then 1 else 0))
    | JInt z => Some (inl z)
    | JFloat f => Some (inr f)
    | _ => None
    end in
  match a, b with
  | JNull, JNull => true
  | JStr s, JStr t => String.eqb s t
  | _, _ =>
      match num a, num b with
      | Some (inl x), Some (inl y) => x =? y
      | Some (inr x), Some (inr y) => (x =? y)%float
      | Some (inl x), Some (inr y) => int_float_eqb x y
      | Some (inr x), Some (inl y) => int_float_eqb y x
      | _, _ => false
      end
  end.

Definition dict (V : Type) := list (json * V).

Fixpoint lookup {V} (k : json) (d : dict V) : option V :=
  match d with
  | [] => None
  | (k', v) :: d' => if key_eqb k k' then Some v else lookup k d'
  end.

(** [d[k] = v]: an existing key keeps its place, a new one goes last. *)
Fixpoint set {V} (k : json) (v : V) (d : dict V) : dict V :=
  match d with
  | [] => [(k, v)]
  | (k', v') :: d' =>
      if key_eqb k k' then (k', v) :: d' else (k', v') :: set k v d'
  end.

Definition values {V} (d : dict V) : list V := map snd d.

(** [v == s] for a string [s] *)
Definition eq_str (v : json) (s : string) : bool :=
  match v with
  | JStr t => String.eqb t s
  | _ => false
  end.

(** [k in v] for a string [k]: a key of a dict, an element of a list, a
    substring of a string. *)
Definition contains (v : json) (k : string) : res bool :=
  match v with
  | JDict d => Ok (match assoc k d with Some _ => true | None => false end)
  | JList l => Ok (existsb (fun x => eq_str x k) l)
  | JStr s => Ok (match String.index 0 k s with Some _ => true | None => false end)
  | _ => Raise TypeError
  end.

Definition is_dict (v : json) : bool :=
  match v with
  | JDict _ => true
  | _ => false
  end.

End Py.

(** ** utils/calculations.py *)

Record RiskMetrics := {
  is_near : bool;
  maintenance_margin : float;
  liquidation_threshold : float;
  margin_buffer : float;
  buffer_percentage : float
}.

Module PositionCalculator.
Import PyNum.

Section Calculator.
Context `{PyBuiltins}.

(** The body of the [try] block of [calculate_apy]. *)
Definition calculate_apy_body
    (rate : float) (payments_per_year : Z) (compound : bool) : res float :=
  let? annual_yield :=
    if compound then
      let? annual_rate := mul_int rate payments_per_year in
      let? per_payment := div_int annual_rate payments_per_year in
      let? grown := float_pow (1 + per_payment)%float payments_per_year in
      Ok (grown - 1)%float
    else
      mul_int rate payments_per_year
  in
  mul_int annual_yield 100.

(** [calculate_apy]: any exception of the body is logged and 0.0 returned. *)
Definition calculate_apy
    (rate : float) (payments_per_year : Z) (compound : bool) : float :=
  match calculate_apy_body rate payments_per_year compound with
  | Ok y => y
  | Raise _ => 0%float
  end.

End Calculator.

Definition calculate_maintenance_margin (max_leverage : Z) : res float :=
  let? inv := int_truediv 1 max_leverage in
  Ok (inv * 0.5)%float.

Definition calculate_liquidation_threshold
    (total_open_position_usd : float) (max_leverage : Z) : res float :=
  let? maintenance_margin := calculate_maintenance_margin max_leverage in
  Ok (maintenance_margin * total_open_position_usd)%float.

(** [warning_threshold_pct] is annotated [float]; its default, the int 10,
    compares with a float exactly as 10.0 does. *)
Definition is_near_liquidation
    (account_value total_open_position_usd : float) (max_leverage : Z)
    (warning_threshold_pct : float) : res RiskMetrics :=
  let? maintenance_margin := calculate_maintenance_margin max_leverage in
  let? liquidation_threshold :=
    calculate_liquidation_threshold total_open_position_usd max_leverage in
  let margin_buffer := (account_value - liquidation_threshold)%float in
  let? buffer_percentage :=
    if (0 <? liquidation_threshold)%float
    then mul_int (margin_buffer / liquidation_threshold)%float 100
    else Ok infinity in
  Ok {| is_near := (buffer_percentage <? warning_threshold_pct)%float;
        maintenance_margin := maintenance_margin;
        liquidation_threshold := liquidation_threshold;
        margin_buffer := margin_buffer;
        buffer_percentage := buffer_percentage |}.

Definition default_warning_threshold_pct : float := 10%float.

(** The module-level [calculate_net_apy]. *)
Definition calculate_net_apy
    (supply_apy borrow_apy supply_usd borrow_usd : float) : res float :=
  let net_worth_usd := (supply_usd - borrow_usd)%float in
  if (net_worth_usd <=? 0)%float then Ok 0%float else
  let? supply_share := float_div supply_usd net_worth_usd in
  let? borrow_share := float_div borrow_usd net_worth_usd in
  Ok (supply_apy * supply_share - borrow_apy * borrow_share)%float.

End PositionCalculator.

(** ** utils/monitoring.py *)

(** [liquidation_price] is a float, or the int 0 when the venue reports no
    liquidation price. *)
Inductive number :=
| NInt (z : Z)
| NFloat (f : float).

Record FundingInfo := {
  allTime : float;
  sinceOpen : float;
  sinceChange : float;
  currentRate : float;
  projectedApy : float
}.

Record PositionInfo := {
  coin : json;
  position_usd : float;
  notional_usd : float;
  max_leverage : Z;
  account_value : float;
  liquidation_price : number;
  entry_price : float;
  size : float;
  leverage : Z;
  unrealized_pnl : float;
  funding : FundingInfo;
  risk_metrics : RiskMetrics;
  funding_apy : float;
  current_funding_rate : float;
  current_mark_price : float
}.

(** An entry of [asset_contexts]: the dict with keys "funding" and "markPx"
    that [update_asset_context] stores. *)
Record AssetCtx := {
  ctx_funding : float;
  ctx_markPx : float
}.

Record PositionMonitor := {
  latest_state : json;
  asset_contexts : Py.dict AssetCtx;
  positions : Py.dict PositionInfo
}.

Module Monitor.
Import PyNum.

(** [PositionMonitor.__init__] *)
Definition init : PositionMonitor :=
  {| latest_state := JNull; asset_contexts := []; positions := [] |}.

Definition update_state (self : PositionMonitor) (msg : json) : PositionMonitor :=
  {| latest_state := msg;
     asset_contexts := asset_contexts self;
     positions := positions self |}.

Definition with_positions (self : PositionMonitor) (ps : Py.dict PositionInfo)
    : PositionMonitor :=
  {| latest_state := latest_state self;
     asset_contexts := asset_contexts self;
     positions := ps |}.

Definition get_funding_rate (self : PositionMonitor) (coin : json) : res float :=
  if Py.hashable coin then
    match Py.lookup coin (asset_contexts self) with
    | Some c => Ok (ctx_funding c)
    | None => Ok 0%float
    end
  else Raise TypeError.

Definition get_mark_price (self : PositionMonitor) (coin : json) : res float :=
  if Py.hashable coin then
    match Py.lookup coin (asset_contexts self) with
    | Some c => Ok (ctx_markPx c)
    | None => Ok 0%float
    end
  else Raise TypeError.

Section Processing.
Context `{PyBuiltins}.

(** [float(d[k])] *)
Definition item_float (d : json) (k : string) : res float :=
  let? v := Py.item d k in Py.to_float v.

(** [update_asset_context]: the monitor is unchanged when the call raises. *)
Definition update_asset_context (self : PositionMonitor) (data : json)
    : PositionMonitor * res unit :=
  let entry :=
    let? coin := Py.item data "coin" in
    let? ctx := Py.item data "ctx" in
    let? f := item_float ctx "funding" in
    let? ctx' := Py.item data "ctx" in
    let? mp := item_float ctx' "markPx" in
    if Py.hashable coin
    then Ok (coin, {| ctx_funding := f; ctx_markPx := mp |})
    else Raise TypeError in
  match entry with
  | Ok (coin, c) =>
      ({| latest_state := latest_state self;
          asset_contexts := Py.set coin c (asset_contexts self);
          positions := positions self |}, Ok tt)
  | Raise e => (self, Raise e)
  end.

(** One iteration of the loop of [process_position_data]: [Ok None] is a
    [continue], [Ok (Some (coin, info))] the entry stored at its end. *)
Definition build_position (self : PositionMonitor) (ch_state position : json)
    : res (option (json * PositionInfo)) :=
  let? pos := Py.get position "position" JNull in
  if negb (Py.truthy pos) then Ok None else
  let? coin := Py.get pos "coin" JNull in
  let? szi := Py.get pos "szi" (JInt 0) in
  let? size := Py.to_float szi in
  if (size =? 0)%float then Ok None else
  let? current_funding_rate := get_funding_rate self coin in
  let? current_mark_price := get_mark_price self coin in
  let adjusted_funding_rate :=
    if (0 <? size)%float then (- current_funding_rate)%float
    else current_funding_rate in
  let funding_apy :=
    PositionCalculator.calculate_apy adjusted_funding_rate 8760 false in
  let? position_usd := item_float pos "positionValue" in
  let? entry_px := item_float pos "entryPx" in
  let notional_usd := (size * entry_px)%float in
  let? max_leverage := (let? v := Py.item pos "maxLeverage" in Py.to_int v) in
  let? margin_summary := Py.item ch_state "marginSummary" in
  let? account_value := item_float margin_summary "accountValue" in
  let? liq := Py.item pos "liquidationPx" in
  let? liquidation_price :=
    if Py.truthy liq
    then (let? l := item_float pos "liquidationPx" in Ok (NFloat l))
    else Ok (NInt 0) in
  let? entry_price := item_float pos "entryPx" in
  let? lev := Py.item pos "leverage" in
  let? lev_value := item_float lev "value" in
  let? leverage := int_of_float lev_value in
  let? unrealized_pnl := item_float pos "unrealizedPnl" in
  let? risk_metrics :=
    PositionCalculator.is_near_liquidation
      account_value position_usd max_leverage 10 in
  let? cum := Py.item pos "cumFunding" in
  let? since_open_funding := item_float cum "sinceOpen" in
  let adjusted_since_open := (- since_open_funding)%float in
  let? cum1 := Py.item pos "cumFunding" in
  let? all_time := item_float cum1 "allTime" in
  let? cum2 := Py.item pos "cumFunding" in
  let? since_change := item_float cum2 "sinceChange" in
  let funding_info :=
    {| allTime := all_time;
       sinceOpen := adjusted_since_open;
       sinceChange := since_change;
       currentRate := adjusted_funding_rate;
       projectedApy := funding_apy |} in
  Ok (Some (coin,
    {| coin := coin;
       position_usd := position_usd;
       notional_usd := notional_usd;
       max_leverage := max_leverage;
       account_value := account_value;
       liquidation_price := liquidation_price;
       entry_price := entry_price;
       size := size;
       leverage := leverage;
       unrealized_pnl := unrealized_pnl;
       funding := funding_info;
       risk_metrics := risk_metrics;
       funding_apy := funding_apy;
       current_funding_rate := adjusted_funding_rate;
       current_mark_price := current_mark_price |})).

(** The [for] loop: [acc] is [self.positions] as built so far; an
    exception leaves it as it stands and propagates. *)
Fixpoint process_positions (self : PositionMonitor) (ch_state : json)
    (l : list json) (acc : Py.dict PositionInfo)
    : Py.dict PositionInfo * res unit :=
  match l with
  | [] => (acc, Ok tt)
  | position :: l' =>
      match build_position self ch_state position with
      | Raise e => (acc, Raise e)
      | Ok None => process_positions self ch_state l' acc
      | Ok (Some (coin, info)) =>
          process_positions self ch_state l' (Py.set coin info acc)
      end
  end.

Definition process_position_data (self : PositionMonitor)
    : PositionMonitor * res unit :=
  if negb (Py.truthy (latest_state self)) then (self, Ok tt) else
  match Py.get (latest_state self) "clearinghouseState" JNull with
  | Raise e => (self, Raise e)
  | Ok ch_state =>
      if negb (Py.truthy ch_state) then (self, Ok tt) else
      match (let? ap := Py.get ch_state "assetPositions" (JList []) in Py.iter ap) with
      | Raise e => (with_positions self [], Raise e)
      | Ok l =>
          let (ps, r) := process_positions self ch_state l [] in
          (with_positions self ps, r)
      end
  end.

(** The clearinghouse state of a message, when [process_position_data]
    gets as far as clearing the position set for it. *)
Definition clearinghouse (msg : json) : option json :=
  if Py.truthy msg then
    match Py.get msg "clearinghouseState" JNull with
    | Ok ch_state => if Py.truthy ch_state then Some ch_state else None
    | Raise _ => None
    end
  else None.

(** The method calls a monitor receives over its life. *)
Inductive call :=
| UpdateState (msg : json)
| UpdateAssetContext (data : json)
| ProcessPositionData.

Definition step (self : PositionMonitor) (c : call) : PositionMonitor :=
  match c with
  | UpdateState msg => update_state self msg
  | UpdateAssetContext data => fst (update_asset_context self data)
  | ProcessPositionData => fst (process_position_data self)
  end.

Definition run (cs : list call) : PositionMonitor := fold_left step cs init.

End Processing.

(** A signed size that the test [size == 0] rejects. *)
Definition nonzero_size (info : PositionInfo) : Prop :=
  (size info =? 0)%float = false.

(** [get_position_info(coin)]: the whole set for a falsy [coin] (its
    default is [None]), else the entry of that coin, if any. *)
Definition get_position_info (self : PositionMonitor) (coin : json)
    : res (Py.dict PositionInfo) :=
  if Py.truthy coin then
    if Py.hashable coin then
      match Py.lookup coin (positions self) with
      | Some info => Ok [(coin, info)]
      | None => Ok []
      end
    else Raise TypeError
  else Ok (positions self).

Definition get_funding_info (self : PositionMonitor) (coin : json)
    : res (Py.dict FundingInfo) :=
  if Py.truthy coin then
    if Py.hashable coin then
      match Py.lookup coin (positions self) with
      | Some info => Ok [(coin, funding info)]
      | None => Ok []
      end
    else Raise TypeError
  else Ok (map (fun kv => (fst kv, funding (snd kv))) (positions self)).

Definition get_risk_metrics (self : PositionMonitor) (coin : json)
    : res (Py.dict RiskMetrics) :=
  if Py.truthy coin then
    if Py.hashable coin then
      match Py.lookup coin (positions self) with
      | Some info => Ok [(coin, risk_metrics info)]
      | None => Ok []
      end
    else Raise TypeError
  else Ok (map (fun kv => (fst kv, risk_metrics (snd kv))) (positions self)).

(** [monitor_liquidation_risk]: the positions a liquidation warning is
    logged for, in order. *)
Definition monitor_liquidation_risk (self : PositionMonitor)
    (warning_threshold_pct : float) : list PositionInfo :=
  filter (fun position => is_near (risk_metrics position))
         (Py.values (positions self)).

End Monitor.

(** ** utils/websocket_handler.py and the handlers of ProtocolDataManager *)

(** The attributes of [ProtocolDataManager] its stream handlers use. *)
Record ProtocolDataManager := {
  position_monitor : PositionMonitor;
  hl_data : Py.dict PositionInfo
}.

Module Stream.

(** The callbacks registered with the stream: the four handler methods of
    [ProtocolDataManager]. *)
Inductive callback :=
| OrderUpdate
| TradeUpdate
| AssetUpdate
| AccountUpdate.

(** [WebSocketHandler.subscriptions]: a dict from subscription type to
    callback. *)
Definition subscriptions := list (string * callback).

Fixpoint add_custom_handler (subs : subscriptions)
    (subscription_type : string) (cb : callback) : subscriptions :=
  match subs with
  | [] => [(subscription_type, cb)]
  | (k, c) :: rest =>
      if String.eqb subscription_type k then (k, cb) :: rest
      else (k, c) :: add_custom_handler rest subscription_type cb
  end.

Fixpoint handler_of (subs : subscriptions) (k : string) : option callback :=
  match subs with
  | [] => None
  | (k', c) :: rest => if String.eqb k k' then Some c else handler_of rest k
  end.

(** [channel in self.subscriptions], with the callback found. *)
Definition subscribed (subs : subscriptions) (channel : json)
    : res (option callback) :=
  if Py.hashable channel then
    match channel with
    | JStr k => Ok (handler_of subs k)
    | _ => Ok None
    end
  else Raise TypeError.

(** The subscriptions after [initialize_hyperliquid] has added its four
    handlers. *)
Definition registered : subscriptions :=
  add_custom_handler
    (add_custom_handler
       (add_custom_handler
          (add_custom_handler [] "OrderUpdates" OrderUpdate)
          "UserFills" TradeUpdate)
       "activeAssetCtx" AssetUpdate)
    "webData2" AccountUpdate.

(** The coins whose contexts [_handle_message] lets through. *)
Definition context_coins : list string := ["ETH"; "BTC"; "SOL"].

(** The body of the [try] block of [_handle_message], up to the call:
    the callback to call and its argument, if any. *)
Definition route (subs : subscriptions) (message : json)
    : res (option (callback * json)) :=
  let? channel := Py.get message "channel" JNull in
  if Py.eq_str channel "activeAssetCtx" then
    let? has_data := Py.contains message "data" in
    let? data_ok :=
      if has_data
      then (let? data := Py.item message "data" in Ok (Py.is_dict data))
      else Ok false in
    if data_ok then
      let? data := Py.item message "data" in
      let? has_coin := Py.contains data "coin" in
      let? has_both :=
        if has_coin
        then (let? data' := Py.item message "data" in Py.contains data' "ctx")
        else Ok false in
      if has_both then
        let? cb := subscribed subs channel in
        match cb with
        | Some c =>
            let? data' := Py.item message "data" in
            let? coin := Py.item data' "coin" in
            if existsb (Py.eq_str coin) context_coins then
              let? payload := Py.item message "data" in
              Ok (Some (c, payload))
            else Ok None
        | None => Ok None
        end
      else Ok None
    else Ok None
  else
    let? cb := subscribed subs channel in
    match cb with
    | Some c =>
        let? payload := Py.item message "data" in
        Ok (Some (c, payload))
    | None => Ok None
    end.

(** A key of the context cache that names one of these coins. *)
Definition allowed_key (k : json) : Prop :=
  exists s, k = JStr s /\ In s context_coins.

Section Handlers.
Context `{PyBuiltins}.

Definition _handle_asset_update (self : ProtocolDataManager) (msg : json)
    : ProtocolDataManager * res unit :=
  let (monitor, r) := Monitor.update_asset_context (position_monitor self) msg in
  ({| position_monitor := monitor; hl_data := hl_data self |}, r).

Definition _handle_account_update (self : ProtocolDataManager) (msg : json)
    : ProtocolDataManager * res unit :=
  let updated := Monitor.update_state (position_monitor self) msg in
  let (monitor, r) := Monitor.process_position_data updated in
  match (let? _ := r in Monitor.get_position_info monitor JNull) with
  | Ok info => ({| position_monitor := monitor; hl_data := info |}, Ok tt)
  | Raise e => ({| position_monitor := monitor; hl_data := hl_data self |}, Raise e)
  end.

Definition invoke (cb : callback) (self : ProtocolDataManager) (msg : json)
    : ProtocolDataManager * res unit :=
  match cb with
  | OrderUpdate => (self, Ok tt)
  | TradeUpdate => (self, Ok tt)
  | AssetUpdate => _handle_asset_update self msg
  | AccountUpdate => _handle_account_update self msg
  end.

(** [_handle_message]: whatever is raised, by the routing or by the
    callback, is logged and dropped. *)
Definition _handle_message (subs : subscriptions) (self : ProtocolDataManager)
    (message : json) : ProtocolDataManager :=
  match route subs message with
  | Ok (Some (cb, payload)) => fst (invoke cb self payload)
  | Ok None => self
  | Raise _ => self
  end.

(** [ProtocolDataManager] once [initialize_hyperliquid] has created the
    monitor. *)
Definition initialized : ProtocolDataManager :=
  {| position_monitor := Monitor.init; hl_data := [] |}.

(** The manager after the stream has delivered [messages], in order. *)
Definition deliver (messages : list json) : ProtocolDataManager :=
  fold_left (_handle_message registered) messages initialized.

End Handlers.

End Stream.

(** ** strategies/delta_neutral_executor.py *)

Module Executor.
Import PyNum.

(** The configuration read from the environment by [__init__]. *)
Record Executor := {
  min_profitability : float;
  borrow_perc_of_ltv : float;
  initial_usdc : float;
  swap_percentage : float
}.

Record Receipt := { transactionHash : string }.

(** What a swap leaves behind: the receipt handed back to the caller, and
    the base-asset amount the swap paid out, which the receipt's logs
    report. *)
Record SwapResult := {
  swap_receipt : Receipt;
  amount_received : Z
}.

(** An entry of [get_reserves_data()], with its [ltv] as [float] reads it. *)
Record Reserve := {
  symbol : string;
  ltv : float
}.

(** The collaborators, as the answers they give. [user_state k] is the
    answer to the k-th poll of the exchange account. *)
Record World := {
  get_eth_price : res float;
  swap_usdc_to_eth : Z -> Z -> res SwapResult;
  supply_eth : Z -> res Receipt;
  get_reserves_data : list Reserve;
  borrow_asset : Z -> res Receipt;
  deposit_usdc_to_hyperliquid : float -> res string;
  wait_for_transaction_receipt : string -> res unit;
  user_state : nat -> res json;
  meta : res json;
  market_open : number -> res json
}.

(** The calls made to collaborators, in order, with their arguments. *)
Inductive event :=
| EGetEthPrice
| ESwapUsdcToEth (amount min_amount_out : Z)
| ESupplyEth (amount : Z)
| EGetReservesData
| EBorrowAsset (amount : Z)
| EDepositUsdc (amount_usdc : float)
| EWaitForReceipt (tx_hash : string)
| EUserState
| ESleep
| EMeta
| EMarketOpen (sz : number).

(** Computations that call collaborators and may raise. *)
Definition M (A : Type) := list event -> list event * res A.

Definition ret {A} (a : A) : M A := fun t => (t, Ok a).

Definition bind {A B} (c : M A) (k : A -> M B) : M B :=
  fun t =>
    match c t with
    | (t', Ok a) => k a t'
    | (t', Raise e) => (t', Raise e)
    end.

Definition lift {A} (r : res A) : M A := fun t => (t, r).

Definition call {A} (e : event) (r : res A) : M A := fun t => ((t ++ [e])%list, r).

Declare Scope exec_scope.
Delimit Scope exec_scope with exec.
Notation "x <- c ;; k" := (bind c (fun x => k))
  (at level 61, c at next level, right associativity) : exec_scope.
Local Open Scope exec_scope.

Definition should_execute (self : Executor) (simulated_apy : float) : M bool :=
  min_profitability <- lift (mul_int (min_profitability self) 100) ;;
  ret (min_profitability <? simulated_apy)%float.

Definition max_retries : nat := 30.

Section Strategy.
Context `{PyBuiltins}.
Variable self : Executor.
Variable w : World.

(** [float(hl_balance.get('marginSummary', {}).get('accountValue', 0))] *)
Definition reported_account_value (hl_balance : json) : res float :=
  let? ms := Py.get hl_balance "marginSummary" (JDict []) in
  let? av := Py.get ms "accountValue" (JInt 0) in
  Py.to_float av.

(** The polling loop of step 4, with [n] iterations left. *)
Fixpoint wait_for_deposit (borrow_amount : Z) (n k : nat) : M unit :=
  match n with
  | O => ret tt
  | S n' =>
      hl_balance <- call EUserState (user_state w k) ;;
      account_value <- lift (reported_account_value hl_balance) ;;
      needed <- lift (int_truediv borrow_amount (10 ^ 6)) ;;
      if (needed <=? account_value)%float then ret tt
      else
        _ <- call ESleep (Ok tt) ;;
        wait_for_deposit borrow_amount n' (S k)
  end.

(** The loop filling [sz_decimals] from [meta["universe"]]. *)
Fixpoint size_decimals (universe : list json) (acc : Py.dict json)
    : res (Py.dict json) :=
  match universe with
  | [] => Ok acc
  | asset_info :: rest =>
      let? decimals := Py.item asset_info "szDecimals" in
      let? name := Py.item asset_info "name" in
      if Py.hashable name then size_decimals rest (Py.set name decimals acc)
      else Raise TypeError
  end.

(** [round(x, ndigits)] *)
Definition py_round (x : float) (ndigits : json) : res number :=
  match ndigits with
  | JInt z => let? r := round_ndigits x z in Ok (NFloat r)
  | JBool b => let? r := round_ndigits x (if b then 1 else 0) in Ok (NFloat r)
  | JNull => let? r := round_to_int x in Ok (NInt r)
  | _ => Raise TypeError
  end.

(** The loop over the order statuses: [Ok true] when every status is a
    fill, [Ok false] for the [return False] of the [except KeyError]
    branch. *)
Fixpoint all_filled (statuses : list json) : res bool :=
  match statuses with
  | [] => Ok true
  | status :: rest =>
      let logged :=
        let? filled := Py.item status "filled" in
        let? _ := Py.item filled "oid" in
        let? _ := Py.item filled "totalSz" in
        let? _ := Py.item filled "avgPx" in
        Ok tt in
      match logged with
      | Ok _ => all_filled rest
      | Raise KeyError => let? _ := Py.item status "error" in Ok false
      | Raise e => Raise e
      end
  end.

Definition order_succeeded (order_result : json) : res bool :=
  let? ok :=
    if Py.truthy order_result then
      let? status := Py.get order_result "status" JNull in
      Ok (match status with JStr s => String.eqb s "ok" | _ => false end)
    else Ok false in
  if ok then
    let? response := Py.item order_result "response" in
    let? data := Py.item response "data" in
    let? statuses := Py.item data "statuses" in
    let? l := Py.iter statuses in
    all_filled l
  else Ok false.

(** The body of the [try] block of [execute_strategy]. *)
Definition execute_strategy_body : M bool :=
  (* 1. Swap USDC to ETH *)
  usdc_to_swap <- lift (
    let? x := mul_int (initial_usdc self * swap_percentage self)%float (10 ^ 6) in
    int_of_float x) ;;
  eth_price <- call EGetEthPrice (get_eth_price w) ;;
  min_eth_amount <- lift (decimal_min_out usdc_to_swap eth_price) ;;
  _ <- lift (int_truediv usdc_to_swap (10 ^ 6)) ;;
  swapped <- call (ESwapUsdcToEth usdc_to_swap min_eth_amount)
                  (swap_usdc_to_eth w usdc_to_swap min_eth_amount) ;;
  (* 2. Supply the ETH *)
  let eth_to_supply := min_eth_amount in
  _ <- lift (int_truediv eth_to_supply (10 ^ 18)) ;;
  supply_receipt <- call (ESupplyEth eth_to_supply) (supply_eth w eth_to_supply) ;;
  (* 3. Borrow USDC *)
  reserves <- call EGetReservesData (Ok (get_reserves_data w)) ;;
  eth_ltv <- lift (
    match find (fun r => String.eqb (symbol r) "WETH") reserves with
    | Some weth => Ok (ltv weth)
    | None => Raise TypeError
    end) ;;
  eth_supplied <- lift (int_truediv eth_to_supply (10 ^ 18)) ;;
  let eth_value_usd := (eth_supplied * eth_price)%float in
  borrow_amount <- lift (
    let? x := mul_int (eth_value_usd * eth_ltv * borrow_perc_of_ltv self)%float (10 ^ 6) in
    int_of_float x) ;;
  borrow_usdc <- lift (int_truediv borrow_amount (10 ^ 6)) ;;
  borrow_receipt <- call (EBorrowAsset borrow_amount) (borrow_asset w borrow_amount) ;;
  (* 4. Deposit USDC to Hyperliquid *)
  deposit_tx_hash <- call (EDepositUsdc borrow_usdc)
                          (deposit_usdc_to_hyperliquid w borrow_usdc) ;;
  _ <- call (EWaitForReceipt deposit_tx_hash)
            (wait_for_transaction_receipt w deposit_tx_hash) ;;
  _ <- wait_for_deposit borrow_amount max_retries 0 ;;
  (* 5. Open short position on Hyperliquid *)
  eth_to_short <- lift (int_truediv eth_to_supply (10 ^ 18)) ;;
  meta <- call EMeta (meta w) ;;
  sz_decimals <- lift (
    let? universe := Py.item meta "universe" in
    let? l := Py.iter universe in
    size_decimals l []) ;;
  eth_to_short <- lift (
    match Py.lookup (JStr "ETH") sz_decimals with
    | Some ndigits => py_round eth_to_short ndigits
    | None => Raise KeyError
    end) ;;
  order_result <- call (EMarketOpen eth_to_short) (market_open w eth_to_short) ;;
  lift (order_succeeded order_result).

(** [execute_strategy]: the value returned, and the collaborator calls
    made. Any exception is logged and turned into [False]. *)
Definition execute_strategy : bool * list event :=
  match execute_strategy_body [] with
  | (t, Ok b) => (b, t)
  | (t, Raise _) => (false, t)
  end.

End Strategy.

(** Whether, among the calls of a trace, a swap went through: from then on
    on-chain state has changed. *)
Definition swap_went_through (w : World) (t : list event) : bool :=
  existsb (fun e =>
    match e with
    | ESwapUsdcToEth amount min_amount_out =>
        match swap_usdc_to_eth w amount min_amount_out with
        | Ok _ => true
        | Raise _ => false
        end
    | _ => false
    end) t.

(** The amounts passed to [supply_eth] in a trace. *)
Definition supplied (t : list event) : list Z :=
  flat_map (fun e => match e with ESupplyEth a => [a] | _ => [] end) t.

Definition attempted_market_open (t : list event) : bool :=
  existsb (fun e => match e with EMarketOpen _ => true | _ => false end) t.

(** A computation that only adds events satisfying [P] to the trace. *)
Definition emits {A} (P : event -> Prop) (c : M A) : Prop :=
  forall t, exists added, fst (c t) = (t ++ added)%list /\ Forall P added.

Definition is_supply (e : event) : Prop :=
  match e with ESupplyEth _ => True | _ => False end.

Definition is_poll_or_sleep (e : event) : Prop :=
  e = EUserState \/ e = ESleep.

Definition polls (t : list event) : nat :=
  List.length (filter (fun e => match e with EUserState => true | _ => false end) t).

(** A computation that polls the exchange account at most [n] times. *)
Definition polls_at_most {A} (n : nat) (c : M A) : Prop :=
  forall t, (polls (fst (c t)) <= polls t + n)%nat.

Definition is_deposit (e : event) : Prop :=
  match e with EDepositUsdc _ => True | _ => False end.

Definition is_market_open (e : event) : Prop :=
  match e with EMarketOpen _ => True | _ => False end.

End Executor.

(** ** exchanges/aave_test.py: the reserves the executor reads

    The reply of the data provider is a list of tuples; what the loop of
    [get_reserves_data] looks at is the address and the symbol of each.
    The other entries of a formatted reserve are [Decimal] computations on
    the remaining fields and are taken as given by [format_details]. *)

Module Reserves.

Record FormattedReserve (Details : Type) := {
  reserve_asset : string;
  reserve_symbol : string;
  reserve_details : Details
}.

Arguments reserve_asset {Details} f.
Arguments reserve_symbol {Details} f.
Arguments reserve_details {Details} f.

Definition NATIVE_USDC : string := "0xaf88d065e77c8cC2239327C5EDb3A432268e5831".

(** [str.lower] on an ASCII string, as addresses are. *)
Definition lower_char (c : ascii) : ascii :=
  let n := nat_of_ascii c in
  if ((65 <=? n) && (n <=? 90))%nat then ascii_of_nat (n + 32) else c.

Fixpoint lower (s : string) : string :=
  match s with
  | EmptyString => EmptyString
  | String c s' => String (lower_char c) (lower s')
  end.

Section Selection.
Variables Raw Details : Type.
Variable asset_of : Raw -> string.       (* reserve[0] *)
Variable symbol_of : Raw -> string.      (* reserve[2] *)
Variable format_details : Raw -> res Details.

(** The test that makes the loop [continue] on a USDC that is not the
    native one. *)
Definition foreign_usdc (reserve : Raw) : bool :=
  String.eqb (symbol_of reserve) "USDC"
  && negb (String.eqb (lower (asset_of reserve)) (lower NATIVE_USDC)).

(** The loop, with [seen] the keys of [seen_symbols] and [acc] the list
    [formatted_reserves]. *)
Fixpoint format_reserves (reserves_data : list Raw) (seen : list string)
    (acc : list (FormattedReserve Details)) : res (list (FormattedReserve Details)) :=
  match reserves_data with
  | [] => Ok acc
  | reserve :: rest =>
      if foreign_usdc reserve then format_reserves rest seen acc
      else if existsb (String.eqb (symbol_of reserve)) seen
      then format_reserves rest seen acc
      else
        let? details := format_details reserve in
        format_reserves rest (symbol_of reserve :: seen)
          (acc ++ [{| reserve_asset := asset_of reserve;
                      reserve_symbol := symbol_of reserve;
                      reserve_details := details |}])%list
  end.

(** [get_reserves_data], given the reply of the contract call (the list
    the loop iterates): any exception, of the call or of the formatting,
    gives the empty list. *)
Definition get_reserves_data (reply : res (list Raw))
    : list (FormattedReserve Details) :=
  match (let? reserves_data := reply in format_reserves reserves_data [] []) with
  | Ok formatted_reserves => formatted_reserves
  | Raise _ => []
  end.

End Selection.

Arguments foreign_usdc {Raw} asset_of symbol_of reserve.
Arguments format_reserves {Raw Details} asset_of symbol_of format_details
  reserves_data seen acc.
Arguments get_reserves_data {Raw Details} asset_of symbol_of format_details reply.

End Reserves.

(** ** A reference instance of the library functions

    Exact arithmetic on the values involved, used to run the model on
    concrete inputs: plain decimal literals for the parsers (the venue's
    wire format), the correctly rounded power, decimal rounding of the
    exact value, and the guard expression evaluated without intermediate
    rounding (what [Decimal] gives while its 28 digits are not exceeded
    and the price prints exactly). *)

Module Reference.
Import PyNum.

Definition digit (c : ascii) : option Z :=
  let n := Z.of_nat (nat_of_ascii c) in
  if (48 <=? n) && (n <=? 57) then Some (n - 48) else None.

(** The digits of [s] as a number, with their count. *)
Fixpoint digits (s : string) (acc : Z) (count : Z) : option (Z * Z) :=
  match s with
  | EmptyString => Some (acc, count)
  | String c s' =>
      match digit c with
      | Some d => digits s' (10 * acc + d) (count + 1)
      | None => None
      end
  end.

Fixpoint split_dot (s : string) : string * option string :=
  match s with
  | EmptyString => (EmptyString, None)
  | String c s' =>
      if Ascii.eqb c "."%char then (EmptyString, Some s')
      else let (a, b) := split_dot s' in (String c a, b)
  end.

Definition unsigned_decimal (s : string) : option float :=
  let (ip, fp) := split_dot s in
  match digits ip 0 0, fp with
  | Some (i, ci), None =>
      if 0 <? ci then
        Some match float_of_int i with Ok f => f | Raise _ => infinity end
      else None
  | Some (i, ci), Some fs =>
      match digits fs i 0 with
      | Some (m, cf) =>
          if 0 <? ci + cf then
            Some match int_truediv m (10 ^ cf) with Ok f => f | Raise _ => infinity end
          else None
      | None => None
      end
  | None, _ => None
  end.

Definition signed {A} (s : string) (parse : string -> option A)
    (neg : A -> A) : option A :=
  match s with
  | String "-"%char s' => option_map neg (parse s')
  | String "+"%char s' => parse s'
  | _ => parse s
  end.

Definition parse_float (s : string) : option float :=
  signed s unsigned_decimal PrimFloat.opp.

Definition parse_int (s : string) : option Z :=
  signed s
    (fun t => match digits t 0 0 with
              | Some (i, c) => if 0 <? c then Some i else None
              | None => None
              end)
    Z.opp.

(** [x ** n] computed on the exact value [(-1)^s * m * 2^e] of [x] and
    rounded once. *)
Definition exact_pow (x : float) (n : Z) : res float :=
  match Prim2SF x, n with
  | _, Z0 => Ok 1%float
  | S754_finite s m e, Zpos p =>
      let f := SF2Prim (binary_normalize prec emax
                 (if s && Z.odd n then - (Zpos m) ^ n else Zpos m ^ n) (e * n) false) in
      if PrimFloat.is_infinity f then Raise OverflowError else Ok f
  | S754_finite s m e, Zneg p =>
      let k := Zpos p in
      let f := SF2Prim (SFdiv prec emax
                 (S754_finite false 1 0)
                 (S754_finite (s && Z.odd k) (Z.to_pos (Zpos m ^ k)) (e * k))) in
      if PrimFloat.is_infinity f then Raise OverflowError else Ok f
  | S754_zero s, Zpos p => Ok (if s && Z.odd n then neg_zero else zero)
  | S754_zero _, Zneg _ => Raise ZeroDivisionError
  | S754_infinity s, Zpos p => Ok (if s && Z.odd n then neg_infinity else infinity)
  | S754_infinity s, Zneg p => Ok (if s && Z.odd n then neg_zero else zero)
  | S754_nan, _ => Ok nan
  end.

Definition half_even (p q : Z) : Z :=
  let d := p / q in
  match (2 * (p mod q) ?= q) with
  | Lt => d
  | Gt => d + 1
  | Eq => if Z.even d then d else d + 1
  end.

Definition exact_round (x : float) (ndigits : Z) : res float :=
  match Prim2SF x with
  | S754_finite s m e =>
      let p := if 0 <=? e then Zpos m * 2 ^ e else Zpos m in
      let q := if 0 <=? e then 1 else 2 ^ (- e) in
      let? r :=
        if 0 <=? ndigits
        then int_truediv (half_even (p * 10 ^ ndigits) q) (10 ^ ndigits)
        else float_of_int (half_even p (q * 10 ^ (- ndigits)) * 10 ^ (- ndigits)) in
      Ok (if s then - r else r)%float
  | _ => Ok x
  end.

Definition exact_min_out (usdc_to_swap : Z) (eth_price : float) : res Z :=
  match Prim2SF eth_price with
  | S754_finite s m e =>
      let p := usdc_to_swap * 995 * 10 ^ 9 in
      let num := if 0 <=? e then p else p * 2 ^ (- e) in
      let den := if 0 <=? e then Zpos m * 2 ^ e else Zpos m in
      Ok (Z.quot (if s then - num else num) den)
  | S754_zero _ => Raise ZeroDivisionError
  | S754_infinity _ => Ok 0
  | S754_nan => Raise ValueError
  end.

#[export] Instance builtins : PyBuiltins := {|
  float_of_str := parse_float;
  int_of_str := parse_int;
  float_pow := exact_pow;
  round_ndigits := exact_round;
  decimal_min_out := exact_min_out
|}.

End Reference.

(** ** Concrete inputs *)

Module Examples.
Import Reference Executor.

(** A long ETH position of size 2 entered at 3000, as the venue sends it. *)
Definition eth_long : json :=
  JDict [("type", JStr "oneWay");
         ("position", JDict [
            ("coin", JStr "ETH"); ("szi", JStr "2"); ("entryPx", JStr "3000");
            ("positionValue", JStr "6200"); ("maxLeverage", JInt 20);
            ("liquidationPx", JNull);
            ("leverage", JDict [("type", JStr "cross"); ("value", JInt 5)]);
            ("unrealizedPnl", JStr "200");
            ("cumFunding", JDict [("allTime", JStr "12"); ("sinceOpen", JStr "10");
                                  ("sinceChange", JStr "3")])])].

(** A short BTC position. *)
Definition btc_short : json :=
  JDict [("type", JStr "oneWay");
         ("position", JDict [
            ("coin", JStr "BTC"); ("szi", JStr "-0.5"); ("entryPx", JStr "60000");
            ("positionValue", JStr "30500"); ("maxLeverage", JInt 40);
            ("liquidationPx", JStr "71000.5");
            ("leverage", JDict [("type", JStr "cross"); ("value", JInt 10)]);
            ("unrealizedPnl", JStr "-500");
            ("cumFunding", JDict [("allTime", JStr "-4.5"); ("sinceOpen", JStr "-1.25");
                                  ("sinceChange", JStr "0")])])].

(** A closed position: the venue still lists the coin, with size 0. *)
Definition sol_closed : json :=
  JDict [("type", JStr "oneWay");
         ("position", JDict [("coin", JStr "SOL"); ("szi", JStr "0.0")])].

Definition snapshot : json :=
  JDict [("clearinghouseState", JDict [
            ("marginSummary", JDict [("accountValue", JStr "10000")]);
            ("assetPositions", JList [eth_long; sol_closed; btc_short])])].

Definition eth_ctx : json :=
  JDict [("coin", JStr "ETH");
         ("ctx", JDict [("funding", JStr "0.0000125"); ("markPx", JStr "3100")])].

Definition btc_ctx : json :=
  JDict [("coin", JStr "BTC");
         ("ctx", JDict [("funding", JStr "0.00002"); ("markPx", JStr "61000")])].

(** A monitor that has cached both contexts and received the snapshot. *)
Definition monitor : PositionMonitor :=
  Monitor.run [Monitor.UpdateAssetContext eth_ctx;
               Monitor.UpdateAssetContext btc_ctx;
               Monitor.UpdateState snapshot].

(** The entries [process_position_data] is expected to derive for it. *)
Definition eth_info : PositionInfo :=
  {| coin := JStr "ETH";
     position_usd := 6200;
     notional_usd := 6000;
     max_leverage := 20;
     account_value := 10000;
     liquidation_price := NInt 0;
     entry_price := 3000;
     size := 2;
     leverage := 5;
     unrealized_pnl := 200;
     funding := {| allTime := 12;
                   sinceOpen := -10;
                   sinceChange := 3;
                   currentRate := -0.0000125;
                   projectedApy := -0.0000125 * 8760 * 100 |};
     risk_metrics := {| is_near := false;
                        maintenance_margin := 0.025;
                        liquidation_threshold := 155;
                        margin_buffer := 9845;
                        buffer_percentage := 9845 / 155 * 100 |};
     funding_apy := -0.0000125 * 8760 * 100;
     current_funding_rate := -0.0000125;
     current_mark_price := 3100 |}.

Definition btc_info : PositionInfo :=
  {| coin := JStr "BTC";
     position_usd := 30500;
     notional_usd := -30000;
     max_leverage := 40;
     account_value := 10000;
     liquidation_price := NFloat 71000.5;
     entry_price := 60000;
     size := -0.5;
     leverage := 10;
     unrealized_pnl := -500;
     funding := {| allTime := -4.5;
                   sinceOpen := 1.25;
                   sinceChange := 0;
                   currentRate := 0.00002;
                   projectedApy := 0.00002 * 8760 * 100 |};
     risk_metrics := {| is_near := false;
                        maintenance_margin := 0.0125;
                        liquidation_threshold := 381.25;
                        margin_buffer := 9618.75;
                        buffer_percentage := 9618.75 / 381.25 * 100 |};
     funding_apy := 0.00002 * 8760 * 100;
     current_funding_rate := 0.00002;
     current_mark_price := 61000 |}.

(** A position whose [maxLeverage] is 0. *)
Definition doge_broken : json :=
  JDict [("type", JStr "oneWay");
         ("position", JDict [
            ("coin", JStr "DOGE"); ("szi", JStr "1000"); ("entryPx", JStr "0.25");
            ("positionValue", JStr "260"); ("maxLeverage", JInt 0);
            ("liquidationPx", JNull);
            ("leverage", JDict [("type", JStr "cross"); ("value", JInt 3)]);
            ("unrealizedPnl", JStr "10");
            ("cumFunding", JDict [("allTime", JStr "0"); ("sinceOpen", JStr "0");
                                  ("sinceChange", JStr "0")])])].

Definition clearinghouse_state (asset_positions : list json) : json :=
  JDict [("marginSummary", JDict [("accountValue", JStr "10000")]);
         ("assetPositions", JList asset_positions)].

(** A snapshot with the broken position between two sound ones. *)
Definition snapshot_broken : json :=
  JDict [("clearinghouseState",
          clearinghouse_state [eth_long; doge_broken; btc_short])].

Definition monitor_broken : PositionMonitor :=
  Monitor.run [Monitor.UpdateAssetContext eth_ctx;
               Monitor.UpdateAssetContext btc_ctx;
               Monitor.UpdateState snapshot_broken].

(** A monitor that received the snapshot before any context. *)
Definition monitor_no_context : PositionMonitor :=
  Monitor.run [Monitor.UpdateState snapshot].

(** The ETH entry derived without a cached context. *)
Definition eth_info_no_context : PositionInfo :=
  {| coin := JStr "ETH";
     position_usd := 6200;
     notional_usd := 6000;
     max_leverage := 20;
     account_value := 10000;
     liquidation_price := NInt 0;
     entry_price := 3000;
     size := 2;
     leverage := 5;
     unrealized_pnl := 200;
     funding := {| allTime := 12;
                   sinceOpen := -10;
                   sinceChange := 3;
                   currentRate := -0;
                   projectedApy := -0 |};
     risk_metrics := {| is_near := false;
                        maintenance_margin := 0.025;
                        liquidation_threshold := 155;
                        margin_buffer := 9845;
                        buffer_percentage := 9845 / 155 * 100 |};
     funding_apy := -0;
     current_funding_rate := -0;
     current_mark_price := 0 |}.

(** A funding event, as the stream delivers it: the channel is subscribed
    to, no handler is registered for it. *)
Definition funding_event : json :=
  JDict [("channel", JStr "userFundings");
         ("data", JDict [("user", JStr "0xabc"); ("fundings", JList [])])].

(** An asset context message for ETH, as the stream delivers it. *)
Definition eth_ctx_message : json :=
  JDict [("channel", JStr "activeAssetCtx"); ("data", eth_ctx)].

(** A reply of the data provider, as (address, symbol) pairs: a bridged
    USDC before the native one, and WETH listed twice. *)
Definition provider_reply : list (string * string) :=
  [("0xFF970A61A04b1cA14834A43f5dE4533eBDDB5CC8", "USDC");
   ("0x82aF49447D8a07e3bd95BD0d56f35241523fBab1", "WETH");
   ("0xaf88d065e77c8cC2239327C5EDb3A432268e5831", "USDC");
   ("0x0000000000000000000000000000000000000001", "WETH")].

(** The executor with the defaults of [__init__]. *)
Definition executor : Executor :=
  {| min_profitability := 2;
     borrow_perc_of_ltv := 0.5;
     initial_usdc := 1000;
     swap_percentage := 0.1 |}.

Definition receipt (h : string) : Receipt := {| transactionHash := h |}.

(** The pool pays out 0.049975 ETH for 100 USDC, and reverts when that is
    below the minimum asked for. *)
Definition pool_swap (amount min_amount_out : Z) : res SwapResult :=
  if min_amount_out <=? 49975000000000000
  then Ok {| swap_receipt := receipt "0x5a"; amount_received := 49975000000000000 |}
  else Raise ExternalError.

Definition account (value : string) : json :=
  JDict [("marginSummary", JDict [("accountValue", JStr value)]);
         ("assetPositions", JList [])].

Definition exchange_meta : json :=
  JDict [("universe", JList [
    JDict [("name", JStr "BTC"); ("szDecimals", JInt 5)];
    JDict [("name", JStr "ETH"); ("szDecimals", JInt 4)]])].

Definition filled_order : json :=
  JDict [("status", JStr "ok");
         ("response", JDict [
            ("type", JStr "order");
            ("data", JDict [("statuses", JList [
               JDict [("filled", JDict [("totalSz", JStr "0.0498");
                                        ("avgPx", JStr "1999.5");
                                        ("oid", JInt 77738308)])]])])])].

(** Collaborators that all answer; [balance k] is the account the exchange
    reports at the k-th poll. *)
Definition world (swap : Z -> Z -> res SwapResult)
    (borrow : Z -> res Receipt) (balance : nat -> json) : World :=
  {| get_eth_price := Ok 2000%float;
     swap_usdc_to_eth := swap;
     supply_eth := fun _ => Ok (receipt "0x5b");
     get_reserves_data := [{| symbol := "USDC"; ltv := 0.75 |};
                           {| symbol := "WETH"; ltv := 0.8 |}];
     borrow_asset := borrow;
     deposit_usdc_to_hyperliquid := fun _ => Ok "0x5d";
     wait_for_transaction_receipt := fun _ => Ok tt;
     user_state := fun k => Ok (balance k);
     meta := Ok exchange_meta;
     market_open := fun _ => Ok filled_order |}.

(** The deposit shows up at the third poll. *)
Definition world_ok : World :=
  world pool_swap (fun _ => Ok (receipt "0x5c"))
        (fun k => if (k <? 2)%nat then account "0.0" else account "39.8").

(** The deposit never shows up. *)
Definition world_deposit_missing : World :=
  world pool_swap (fun _ => Ok (receipt "0x5c")) (fun _ => account "0.0").

(** The swap transaction fails: nothing has been executed. *)
Definition world_swap_fails : World :=
  world (fun _ _ => Raise ExternalError) (fun _ => Ok (receipt "0x5c"))
        (fun _ => account "39.8").

(** The borrow transaction fails after the swap and the supply went
    through. *)
Definition world_borrow_fails : World :=
  world pool_swap (fun _ => Raise ExternalError) (fun _ => account "39.8").

End Examples.

(** * Properties *)

(** ** Numbers *)

Lemma float_of_int_100 : PyNum.float_of_int 100 = Ok 100%float.
Proof. vm_compute. reflexivity. Qed.

Lemma mul_int_100 (f : float) : PyNum.mul_int f 100 = Ok (f * 100)%float.
Proof. unfold PyNum.mul_int. rewrite float_of_int_100. reflexivity. Qed.

(** ** The risk calculator *)

Section CalculatorFacts.
Context `{PyBuiltins}.
Import PositionCalculator.

(** C1, as amended: with [compound=False], [calculate_apy r n] returns the
    simple annualization [r * n] multiplied by 100, a percentage; when [n]
    is too large an int to be converted to a float, the OverflowError is
    caught and 0.0 returned. *)
Theorem calculate_apy_simple_is_percentage (r : float) (n : Z) :
  calculate_apy r n false =
  match PyNum.float_of_int n with
  | Ok nf => (r * nf * 100)%float
  | Raise _ => 0%float
  end.
Proof.
  unfold calculate_apy, calculate_apy_body. cbv iota.
  unfold PyNum.mul_int at 1.
  destruct (PyNum.float_of_int n) as [nf | e]; cbn [res_bind].
  - rewrite mul_int_100. reflexivity.
  - reflexivity.
Qed.

(** The simple branch never consults the library functions. *)
Lemma calculate_apy_simple_any_builtins (B1 B2 : PyBuiltins) r n :
  @calculate_apy B1 r n false = @calculate_apy B2 r n false.
Proof. reflexivity. Qed.

End CalculatorFacts.

(** C1, as stated, fails: for the rate 1.0 paid once a year the function
    returns 100.0, not 1.0 * 1. *)
Lemma calculate_apy_simple_is_not_r_times_n :
  PositionCalculator.calculate_apy (H := Reference.builtins) 1 1 false = 100%float
  /\ PositionCalculator.calculate_apy (H := Reference.builtins) 1 1 false
     <> (1 * 1)%float.
Proof.
  split.
  - vm_compute. reflexivity.
  - intro Heq.
    apply (f_equal (fun x => (x =? 1)%float)) in Heq.
    vm_compute in Heq. discriminate Heq.
Qed.

Lemma maintenance_margin_zero_leverage :
  PositionCalculator.calculate_maintenance_margin 0 = Raise ZeroDivisionError.
Proof. reflexivity. Qed.

Lemma maintenance_margin_20 :
  PositionCalculator.calculate_maintenance_margin 20 = Ok 0.025%float.
Proof. vm_compute. reflexivity. Qed.

Lemma liquidation_threshold_unfold (total : float) (ml : Z) :
  PositionCalculator.calculate_liquidation_threshold total ml =
  match PositionCalculator.calculate_maintenance_margin ml with
  | Ok mm => Ok (mm * total)%float
  | Raise e => Raise e
  end.
Proof. reflexivity. Qed.

(** C7: whenever the maintenance margin can be computed (for a leverage
    of 0 it is a ZeroDivisionError), [is_near_liquidation] returns metrics
    in which the margin
    buffer is the account value minus the liquidation threshold, the
    buffer percentage is (buffer / threshold) * 100 for a positive
    threshold and +inf otherwise, and [is_near] is exactly the comparison
    of the buffer percentage with the warning threshold, whose default
    is 10; otherwise the exception of the margin propagates. *)
Theorem is_near_liquidation_metrics
    (account_value total_open_position_usd : float) (max_leverage : Z)
    (warning_threshold_pct : float) :
  PositionCalculator.default_warning_threshold_pct = 10%float /\
  match PositionCalculator.calculate_maintenance_margin max_leverage with
  | Raise e =>
      PositionCalculator.is_near_liquidation
        account_value total_open_position_usd max_leverage warning_threshold_pct
      = Raise e
  | Ok mm =>
      exists r,
        PositionCalculator.is_near_liquidation
          account_value total_open_position_usd max_leverage warning_threshold_pct
        = Ok r
        /\ maintenance_margin r = mm
        /\ PositionCalculator.calculate_liquidation_threshold
             total_open_position_usd max_leverage
           = Ok (liquidation_threshold r)
        /\ margin_buffer r = (account_value - liquidation_threshold r)%float
        /\ buffer_percentage r =
             (if (0 <? liquidation_threshold r)%float
              then (margin_buffer r / liquidation_threshold r * 100)%float
              else infinity)
        /\ is_near r = (buffer_percentage r <? warning_threshold_pct)%float
  end.
Proof.
  split; [reflexivity |].
  unfold PositionCalculator.is_near_liquidation.
  rewrite liquidation_threshold_unfold.
  destruct (PositionCalculator.calculate_maintenance_margin max_leverage)
    as [mm | e]; cbn [res_bind]; [| reflexivity].
  destruct (0 <? mm * total_open_position_usd)%float eqn:Hpos.
  - rewrite mul_int_100. cbn [res_bind].
    eexists. split; [reflexivity |]. cbn.
    rewrite Hpos. repeat split; reflexivity.
  - cbn [res_bind].
    eexists. split; [reflexivity |]. cbn.
    rewrite Hpos. repeat split; reflexivity.
Qed.

(** ** The position monitor *)

Lemma ltb_zero_asym (x : float) :
  (x <? 0)%float = true -> (0 <? x)%float = false.
Proof.
  rewrite !ltb_spec. unfold SFltb.
  replace (Prim2SF 0) with (S754_zero false) by (vm_compute; reflexivity).
  destruct (Prim2SF x) as [s | s | | s m e]; cbn; try discriminate;
    destruct s; cbn; congruence.
Qed.

Section DictFacts.
Context {V : Type}.

Lemma set_In (k : json) (v : V) (d : Py.dict V) (kp : json * V) :
  In kp (Py.set k v d) -> In kp d \/ snd kp = v.
Proof.
  induction d as [| [k' v'] d IH]; cbn.
  - intros [<- | []]. right. reflexivity.
  - destruct (Py.key_eqb k k'); cbn.
    + intros [<- | Hin]; [right; reflexivity | left; right; exact Hin].
    + intros [<- | Hin]; [left; left; reflexivity |].
      destruct (IH Hin) as [Hd | Hv]; [left; right; exact Hd | right; exact Hv].
Qed.

Lemma set_values_Forall (P : V -> Prop) (k : json) (v : V) (d : Py.dict V) :
  Forall P (Py.values d) -> P v -> Forall P (Py.values (Py.set k v d)).
Proof.
  intros Hd Hv. apply Forall_forall. intros x Hx.
  unfold Py.values in Hx. apply in_map_iff in Hx.
  destruct Hx as [[k' x'] [<- Hin]].
  destruct (set_In _ _ _ _ Hin) as [Hold | Hnew].
  - rewrite Forall_forall in Hd. apply Hd.
    unfold Py.values. apply in_map_iff. exists (k', x'). split; [reflexivity | exact Hold].
  - cbn in Hnew. subst x'. exact Hv.
Qed.

End DictFacts.

Section MonitorFacts.
Context `{PyBuiltins}.
Import Monitor.

Ltac invert_binds Hb :=
  repeat match type of Hb with
  | res_bind ?c _ = Ok _ =>
      let E := fresh "E" in
      destruct c eqn:E; cbn [res_bind] in Hb; [| discriminate Hb]
  | (if ?b then Ok None else _) = Ok (Some _) =>
      let E := fresh "E" in
      destruct b eqn:E; [discriminate Hb |]
  end.

(** What an entry stored by the loop owes to the reported position, the
    cached contexts and nothing else. *)
Lemma build_position_stored (self : PositionMonitor) (ch_state position : json)
    (c : json) (info : PositionInfo) :
  build_position self ch_state position = Ok (Some (c, info)) ->
  exists pos szi raw_rate cum since_open,
    Py.get position "position" JNull = Ok pos
    /\ Py.get pos "coin" JNull = Ok c
    /\ coin info = c
    /\ Py.get pos "szi" (JInt 0) = Ok szi
    /\ Py.to_float szi = Ok (size info)
    /\ (size info =? 0)%float = false
    /\ get_funding_rate self c = Ok raw_rate
    /\ currentRate (funding info) =
         (if (0 <? size info)%float then (- raw_rate)%float else raw_rate)
    /\ Py.item pos "cumFunding" = Ok cum
    /\ item_float cum "sinceOpen" = Ok since_open
    /\ sinceOpen (funding info) = (- since_open)%float.
Proof.
  intros Hb. unfold build_position in Hb.
  invert_binds Hb.
  injection Hb as <- <-. cbn.
  repeat eexists; eassumption || reflexivity.
Qed.

Lemma build_position_contexts_only (self : PositionMonitor)
    (ps : Py.dict PositionInfo) (ch_state position : json) :
  build_position (with_positions self ps) ch_state position =
  build_position self ch_state position.
Proof. reflexivity. Qed.

Lemma process_positions_contexts_only (self : PositionMonitor)
    (ps : Py.dict PositionInfo) (ch_state : json) (l : list json) :
  forall acc,
    process_positions (with_positions self ps) ch_state l acc =
    process_positions self ch_state l acc.
Proof.
  induction l as [| position l IH]; intros acc; cbn [process_positions].
  - reflexivity.
  - rewrite build_position_contexts_only.
    destruct (build_position self ch_state position) as [[[c info] |] | e];
      [apply IH | apply IH | reflexivity].
Qed.

(** Every entry of the set the loop leaves was there before it, or was
    built by one of its iterations. *)
Lemma process_positions_origin (self : PositionMonitor) (ch_state : json)
    (l : list json) :
  forall (acc : Py.dict PositionInfo) (kp : json * PositionInfo),
    In kp (fst (process_positions self ch_state l acc)) ->
    In kp acc \/
    exists position c,
      In position l /\
      build_position self ch_state position = Ok (Some (c, snd kp)).
Proof.
  induction l as [| position l IH]; intros acc kp; cbn [process_positions].
  - intros Hin. left. exact Hin.
  - destruct (build_position self ch_state position)
      as [[[c info] |] | e] eqn:Hb.
    + intros Hin. destruct (IH _ _ Hin) as [Hacc | (p' & c' & Hl & Hb')].
      * destruct (set_In _ _ _ _ Hacc) as [Hold | Hnew].
        -- left. exact Hold.
        -- right. exists position, c. split; [left; reflexivity |].
           rewrite Hnew. exact Hb.
      * right. exists p', c'. split; [right; exact Hl | exact Hb'].
    + intros Hin. destruct (IH _ _ Hin) as [Hacc | (p' & c' & Hl & Hb')].
      * left. exact Hacc.
      * right. exists p', c'. split; [right; exact Hl | exact Hb'].
    + intros Hin. left. exact Hin.
Qed.

(** The three ways [process_position_data] ends: without touching the set
    when the message carries no clearinghouse state, with the set emptied
    when the asset positions cannot be iterated, and with the set the
    loop built from the empty one otherwise. *)
Lemma process_position_data_cases (self : PositionMonitor) :
  match clearinghouse (latest_state self) with
  | None => fst (process_position_data self) = self
  | Some ch_state =>
      match (let? ap := Py.get ch_state "assetPositions" (JList []) in Py.iter ap) with
      | Raise e => process_position_data self = (with_positions self [], Raise e)
      | Ok l =>
          process_position_data self =
          (with_positions self (fst (process_positions self ch_state l [])),
           snd (process_positions self ch_state l []))
      end
  end.
Proof.
  unfold clearinghouse, process_position_data.
  destruct (Py.truthy (latest_state self)); cbn [negb]; [| reflexivity].
  destruct (Py.get (latest_state self) "clearinghouseState" JNull)
    as [ch_state | e]; [| reflexivity].
  destruct (Py.truthy ch_state); cbn [negb]; [| reflexivity].
  destruct (let? ap := Py.get ch_state "assetPositions" (JList []) in Py.iter ap)
    as [l | e]; [| reflexivity].
  destruct (process_positions self ch_state l []) as [ps r]. reflexivity.
Qed.

(** Entries of the derived set after a snapshot with a clearinghouse
    state were built from one of its asset positions. *)
Lemma processed_entry_origin (self : PositionMonitor) (ch_state : json)
    (kp : json * PositionInfo) :
  clearinghouse (latest_state self) = Some ch_state ->
  In kp (positions (fst (process_position_data self))) ->
  exists l position c,
    (let? ap := Py.get ch_state "assetPositions" (JList []) in Py.iter ap) = Ok l
    /\ In position l
    /\ build_position self ch_state position = Ok (Some (c, snd kp)).
Proof.
  intros Hch Hin.
  pose proof (process_position_data_cases self) as Hc. rewrite Hch in Hc.
  destruct (let? ap := Py.get ch_state "assetPositions" (JList []) in Py.iter ap)
    as [l | e]; rewrite Hc in Hin; cbn in Hin.
  - destruct (process_positions_origin _ _ _ _ _ Hin) as [[] | (p & c & Hl & Hb)].
    exists l, p, c. repeat split; assumption.
  - destruct Hin.
Qed.

Lemma process_positions_nonzero (self : PositionMonitor) (ch_state : json)
    (l : list json) :
  forall acc,
    Forall nonzero_size (Py.values acc) ->
    Forall nonzero_size (Py.values (fst (process_positions self ch_state l acc))).
Proof.
  induction l as [| position l IH]; intros acc Hacc; cbn [process_positions].
  - exact Hacc.
  - destruct (build_position self ch_state position)
      as [[[c info] |] | e] eqn:Hb.
    + apply IH. apply set_values_Forall; [exact Hacc |].
      apply build_position_stored in Hb.
      destruct Hb as (pos & szi & raw & cum & so & _ & _ & _ & _ & _ & Hnz & _).
      exact Hnz.
    + apply IH. exact Hacc.
    + exact Hacc.
Qed.

Lemma process_position_data_nonzero (self : PositionMonitor) :
  Forall nonzero_size (Py.values (positions self)) ->
  Forall nonzero_size (Py.values (positions (fst (process_position_data self)))).
Proof.
  intros Hself. pose proof (process_position_data_cases self) as Hc.
  destruct (clearinghouse (latest_state self)) as [ch_state |].
  - destruct (let? ap := Py.get ch_state "assetPositions" (JList []) in Py.iter ap)
      as [l | e]; rewrite Hc; cbn.
    + apply process_positions_nonzero. constructor.
    + constructor.
  - rewrite Hc. exact Hself.
Qed.

Lemma update_asset_context_positions (self : PositionMonitor) (data : json) :
  positions (fst (update_asset_context self data)) = positions self.
Proof.
  unfold update_asset_context.
  match goal with |- context [match ?e with Ok _ => _ | Raise _ => _ end] =>
    destruct e as [[c a] | e'] end; reflexivity.
Qed.

Lemma step_nonzero (self : PositionMonitor) (c : call) :
  Forall nonzero_size (Py.values (positions self)) ->
  Forall nonzero_size (Py.values (positions (step self c))).
Proof.
  destruct c as [msg | data |]; cbn [step].
  - intros Hs. exact Hs.
  - rewrite update_asset_context_positions. intros Hs. exact Hs.
  - apply process_position_data_nonzero.
Qed.

Lemma run_nonzero (cs : list call) :
  Forall nonzero_size (Py.values (positions (run cs))).
Proof.
  unfold run.
  assert (Hgen : forall self,
            Forall nonzero_size (Py.values (positions self)) ->
            Forall nonzero_size (Py.values (positions (fold_left step cs self)))).
  { induction cs as [| c cs IH]; intros self Hs; cbn [fold_left].
    - exact Hs.
    - apply IH. apply step_nonzero. exact Hs. }
  apply Hgen. constructor.
Qed.

(** Once a clearinghouse state is present, the result does not depend on
    the set held before the call. *)
Lemma process_position_data_forgets (self : PositionMonitor)
    (ps : Py.dict PositionInfo) :
  clearinghouse (latest_state self) <> None ->
  process_position_data (with_positions self ps) = process_position_data self.
Proof.
  intros Hch.
  pose proof (process_position_data_cases self) as Hs.
  pose proof (process_position_data_cases (with_positions self ps)) as Hp.
  change (latest_state (with_positions self ps)) with (latest_state self) in Hp.
  destruct (clearinghouse (latest_state self)) as [ch_state |]; [| congruence].
  destruct (let? ap := Py.get ch_state "assetPositions" (JList []) in Py.iter ap)
    as [l | e]; rewrite Hs, Hp.
  - rewrite process_positions_contexts_only. reflexivity.
  - reflexivity.
Qed.

(** C5: after any history of calls, processing an account snapshot leaves
    a derived set in which no entry has a signed size equal to 0; and for
    a snapshot that carries a clearinghouse state that set is the one
    built from the empty set, whatever was tracked before (a message
    without one leaves the set as it was). *)
Theorem no_zero_size_position_tracked (cs : list call) (msg : json) :
  let before := run cs in
  let after := fst (process_position_data (update_state before msg)) in
  Forall nonzero_size (Py.values (positions after))
  /\ positions after =
     match clearinghouse msg with
     | Some _ =>
         positions (fst (process_position_data
                           (update_state (with_positions before []) msg)))
     | None => positions before
     end.
Proof.
  intros before after. split.
  - apply process_position_data_nonzero. apply run_nonzero.
  - subst after.
    destruct (clearinghouse msg) as [ch_state |] eqn:Hch.
    + change (update_state (with_positions before []) msg)
        with (with_positions (update_state before msg) []).
      rewrite process_position_data_forgets; [reflexivity |].
      cbn. rewrite Hch. discriminate.
    + pose proof (process_position_data_cases (update_state before msg)) as Hc.
      cbn [latest_state update_state] in Hc. rewrite Hch in Hc.
      rewrite Hc. reflexivity.
Qed.

(** C8: running [process_position_data] a second time on the same latest
    state and context cache gives the same monitor, hence the same derived
    position set, and the same outcome as running it once; and when the
    latest state carries a clearinghouse state the result is determined
    by that state and the context cache alone, whatever set was tracked
    before. *)
Theorem process_position_data_idempotent (self : PositionMonitor) :
  process_position_data (fst (process_position_data self)) =
  process_position_data self
  /\ forall ps : Py.dict PositionInfo,
       match clearinghouse (latest_state self) with
       | Some _ =>
           process_position_data (with_positions self ps) =
           process_position_data self
       | None =>
           fst (process_position_data (with_positions self ps)) =
           with_positions self ps
       end.
Proof.
  pose proof (process_position_data_cases self) as Hc.
  destruct (clearinghouse (latest_state self)) as [ch_state |] eqn:Hch.
  - assert (Hsome : clearinghouse (latest_state self) <> None)
      by (rewrite Hch; discriminate).
    split.
    + assert (Hfst : exists ps,
                fst (process_position_data self) = with_positions self ps).
      { destruct (let? ap := Py.get ch_state "assetPositions" (JList []) in Py.iter ap)
          as [l | e]; rewrite Hc; eexists; reflexivity. }
      destruct Hfst as [ps Hps]. rewrite Hps.
      apply process_position_data_forgets. exact Hsome.
    + intros ps. apply process_position_data_forgets. exact Hsome.
  - split.
    + rewrite Hc. reflexivity.
    + intros ps.
      pose proof (process_position_data_cases (with_positions self ps)) as Hp.
      change (latest_state (with_positions self ps)) with (latest_state self) in Hp.
      rewrite Hch in Hp. exact Hp.
Qed.

(** C6: every entry derived from a snapshot stores as [currentRate] the
    negation of the funding rate cached for its coin when its signed size
    is > 0, and that rate itself when its signed size is < 0. *)
Theorem funding_sign_law (self : PositionMonitor) (k : json) (info : PositionInfo) :
  clearinghouse (latest_state self) <> None ->
  In (k, info) (positions (fst (process_position_data self))) ->
  exists raw_rate,
    get_funding_rate self (coin info) = Ok raw_rate
    /\ ((0 <? size info)%float = true ->
        currentRate (funding info) = (- raw_rate)%float)
    /\ ((size info <? 0)%float = true ->
        currentRate (funding info) = raw_rate).
Proof.
  intros Hch Hin.
  destruct (clearinghouse (latest_state self)) as [ch_state |] eqn:Hc;
    [| congruence].
  destruct (processed_entry_origin _ _ _ Hc Hin) as (l & position & c & _ & _ & Hb).
  apply build_position_stored in Hb. cbn [snd] in Hb.
  destruct Hb as (pos & szi & raw & cum & so & _ & _ & Hcoin & _ & _ & _ & Hraw & Hrate & _).
  exists raw. rewrite Hcoin. split; [exact Hraw |]. split.
  - intros Hlong. rewrite Hrate, Hlong. reflexivity.
  - intros Hshort. rewrite Hrate, (ltb_zero_asym _ Hshort). reflexivity.
Qed.

(** C10: every entry derived from a snapshot stores as [sinceOpen] the
    negation of the cumulative since-open funding the venue reports for
    the position it was built from, whatever the sign of its size. *)
Theorem since_open_always_negated (self : PositionMonitor) (k : json)
    (info : PositionInfo) :
  clearinghouse (latest_state self) <> None ->
  In (k, info) (positions (fst (process_position_data self))) ->
  exists ch_state l position pos cum since_open,
    clearinghouse (latest_state self) = Some ch_state
    /\ (let? ap := Py.get ch_state "assetPositions" (JList []) in Py.iter ap) = Ok l
    /\ In position l
    /\ Py.get position "position" JNull = Ok pos
    /\ Py.get pos "coin" JNull = Ok (coin info)
    /\ Py.item pos "cumFunding" = Ok cum
    /\ item_float cum "sinceOpen" = Ok since_open
    /\ sinceOpen (funding info) = (- since_open)%float.
Proof.
  intros Hch Hin.
  destruct (clearinghouse (latest_state self)) as [ch_state |] eqn:Hc;
    [| congruence].
  destruct (processed_entry_origin _ _ _ Hc Hin) as (l & position & c & Hl & Hp & Hb).
  apply build_position_stored in Hb. cbn [snd] in Hb.
  destruct Hb as (pos & szi & raw & cum & so & Hpos & Hc' & Hcoin & _ & _ & _ & _ & _
                  & Hcum & Hso & Hneg).
  exists ch_state, l, position, pos, cum, so.
  rewrite Hcoin. repeat split; assumption.
Qed.

End MonitorFacts.

(** The funding-sign law on the long ETH position of the example. *)
Lemma funding_sign_law_eth_long :
  exists raw_rate,
    Monitor.get_funding_rate Examples.monitor (coin Examples.eth_info) = Ok raw_rate
    /\ ((0 <? size Examples.eth_info)%float = true ->
        currentRate (funding Examples.eth_info) = (- raw_rate)%float)
    /\ ((size Examples.eth_info <? 0)%float = true ->
        currentRate (funding Examples.eth_info) = raw_rate).
Proof.
  apply (funding_sign_law (H := Reference.builtins)
           Examples.monitor (JStr "ETH") Examples.eth_info).
  - vm_compute. discriminate.
  - vm_compute. left. reflexivity.
Defined.

(** The long position pays the rate, the short one receives it. *)
Lemma funding_rates_of_the_example :
  Monitor.get_funding_rate Examples.monitor (JStr "ETH") = Ok 0.0000125%float
  /\ currentRate (funding Examples.eth_info) = (- 0.0000125)%float
  /\ Monitor.get_funding_rate Examples.monitor (JStr "BTC") = Ok 0.00002%float
  /\ currentRate (funding Examples.btc_info) = 0.00002%float
  /\ In (JStr "BTC", Examples.btc_info)
       (positions (fst (Monitor.process_position_data (H := Reference.builtins)
                          Examples.monitor))).
Proof. vm_compute. repeat split. right. left. reflexivity. Qed.

(** The since-open funding of the long ETH position of the example. *)
Lemma since_open_negated_eth_long :
  exists ch_state l position pos cum since_open,
    Monitor.clearinghouse (latest_state Examples.monitor) = Some ch_state
    /\ (let? ap := Py.get ch_state "assetPositions" (JList []) in Py.iter ap) = Ok l
    /\ In position l
    /\ Py.get position "position" JNull = Ok pos
    /\ Py.get pos "coin" JNull = Ok (coin Examples.eth_info)
    /\ Py.item pos "cumFunding" = Ok cum
    /\ Monitor.item_float (H := Reference.builtins) cum "sinceOpen" = Ok since_open
    /\ sinceOpen (funding Examples.eth_info) = (- since_open)%float.
Proof.
  apply (since_open_always_negated (H := Reference.builtins)
           Examples.monitor (JStr "ETH") Examples.eth_info).
  - vm_compute. discriminate.
  - vm_compute. left. reflexivity.
Defined.

(** The scenario of the long position: size 2 entered at 3000 with
    leverage 20 and 10 of funding since open. *)
Lemma long_position_scenario :
  sinceOpen (funding Examples.eth_info) = (-10)%float
  /\ notional_usd Examples.eth_info = 6000%float
  /\ maintenance_margin (risk_metrics Examples.eth_info) = 0.025%float
  /\ sinceOpen (funding Examples.btc_info) = 1.25%float
  /\ Py.lookup (JStr "SOL")
       (positions (fst (Monitor.process_position_data (H := Reference.builtins)
                          Examples.monitor))) = None.
Proof. vm_compute. repeat split. Qed.

(** ** The execution workflow *)

Section ExecutorFacts.
Import Executor.

(** C9: [should_execute] is the comparison of the simulated APY with 100
    times the minimum profitability; it raises nothing and calls no
    collaborator; with a minimum of 2 it answers False for 150 and True
    for 250. *)
Theorem should_execute_is_comparison :
  (forall (self : Executor) (simulated_apy : float) (t : list event),
     should_execute self simulated_apy t =
     (t, Ok (min_profitability self * 100 <? simulated_apy)%float))
  /\ (forall (b i s : float) (t : list event),
        let self := {| min_profitability := 2; borrow_perc_of_ltv := b;
                       initial_usdc := i; swap_percentage := s |} in
        should_execute self 150 t = (t, Ok false)
        /\ should_execute self 250 t = (t, Ok true)).
Proof.
  assert (Hgen : forall self apy t,
            should_execute self apy t =
            (t, Ok (min_profitability self * 100 <? apy)%float)).
  { intros self apy t. unfold should_execute, bind, lift, ret.
    rewrite mul_int_100. reflexivity. }
  split; [exact Hgen |].
  intros b i s t self. rewrite !Hgen. split; reflexivity.
Qed.

(** Exhausting the retry budget is not a failure of the polling loop: when
    every poll answers with a margin below the amount transferred, the
    loop polls and sleeps [n] times and then returns normally. *)
Lemma wait_for_deposit_exhausted `{PyBuiltins} (w : World)
    (borrow_amount : Z) (needed : float) :
  PyNum.int_truediv borrow_amount (10 ^ 6) = Ok needed ->
  (forall k, exists hl_balance v,
      user_state w k = Ok hl_balance
      /\ reported_account_value hl_balance = Ok v
      /\ (needed <=? v)%float = false) ->
  forall (n k : nat) (t : list event),
    wait_for_deposit w borrow_amount n k t =
    ((t ++ List.concat (repeat [EUserState; ESleep] n))%list, Ok tt).
Proof.
  intros Hneeded Hpoll.
  induction n as [| n IH]; intros k t; cbn [wait_for_deposit].
  - unfold ret. cbn. rewrite app_nil_r. reflexivity.
  - destruct (Hpoll k) as (hl_balance & v & Hb & Hv & Hlt).
    unfold bind at 1. unfold call at 1. rewrite Hb.
    unfold bind at 1. unfold lift at 1. rewrite Hv.
    unfold bind at 1. unfold lift at 1. rewrite Hneeded, Hlt.
    unfold bind at 1. unfold call at 1.
    rewrite IH. cbn [repeat List.concat]. rewrite <- !app_assoc. reflexivity.
Qed.

(** C2, on the input where it fails: the deposit never shows up in the
    30 polls, each of which reports a margin of 0 against the 39.8 USDC
    transferred; the workflow nevertheless fetches the metadata, opens the
    short and returns True. *)
Theorem exhausted_polling_still_opens_hedge :
  let run := execute_strategy (H := Reference.builtins)
               Examples.executor Examples.world_deposit_missing in
  run =
  (true,
   ([EGetEthPrice;
     ESwapUsdcToEth 100000000 49750000000000000;
     ESupplyEth 49750000000000000;
     EGetReservesData;
     EBorrowAsset 39800000;
     EDepositUsdc 39.8;
     EWaitForReceipt "0x5d"]
    ++ List.concat (repeat [EUserState; ESleep] 30)
    ++ [EMeta; EMarketOpen (NFloat 0.0498)])%list)
  /\ polls (snd run) = max_retries
  /\ attempted_market_open (snd run) = true
  /\ (forall k, user_state Examples.world_deposit_missing k
                = Ok (Examples.account "0.0"))
  /\ reported_account_value (H := Reference.builtins) (Examples.account "0.0")
     = Ok 0%float
  /\ (39.8 <=? 0)%float = false.
Proof.
  intros run. subst run.
  repeat split; try (vm_compute; reflexivity).
Qed.

Section Emits.
Context {A B : Type} (P : event -> Prop).

Lemma emits_ret (a : A) : emits P (ret a).
Proof. intros t. exists []. cbn. rewrite app_nil_r. split; [reflexivity | constructor]. Qed.

Lemma emits_lift (r : res A) : emits P (lift r).
Proof. intros t. exists []. cbn. rewrite app_nil_r. split; [reflexivity | constructor]. Qed.

Lemma emits_call (e : event) (r : res A) : P e -> emits P (call e r).
Proof.
  intros He t. exists [e]. cbn. split; [reflexivity | repeat constructor; exact He].
Qed.

Lemma emits_bind (c : M A) (k : A -> M B) :
  emits P c -> (forall a, emits P (k a)) -> emits P (bind c k).
Proof.
  intros Hc Hk t. destruct (Hc t) as (added & Ht & Hadded).
  unfold bind. destruct (c t) as [t' [a | e]]; cbn in Ht; subst t'.
  - destruct (Hk a (t ++ added)%list) as (added' & Ht' & Hadded').
    exists (added ++ added')%list. rewrite Ht', app_assoc.
    split; [reflexivity | apply Forall_app; split; assumption].
  - exists added. split; [reflexivity | exact Hadded].
Qed.

End Emits.

Lemma emits_wait_for_deposit `{PyBuiltins} (P : event -> Prop) (w : World)
    (borrow_amount : Z) :
  P EUserState -> P ESleep ->
  forall n k, emits P (wait_for_deposit w borrow_amount n k).
Proof.
  intros Hu Hs. induction n as [| n IH]; intros k; cbn [wait_for_deposit].
  - apply emits_ret.
  - apply emits_bind; [apply emits_call; exact Hu |]. intros hl_balance.
    apply emits_bind; [apply emits_lift |]. intros v.
    apply emits_bind; [apply emits_lift |]. intros needed.
    destruct (needed <=? v)%float; [apply emits_ret |].
    apply emits_bind; [apply emits_call; exact Hs |]. intros _. apply IH.
Qed.

Lemma bind_run {A B} (c : M A) (k : A -> M B) (t : list event) :
  bind c k t =
  match c t with
  | (t', Ok a) => k a t'
  | (t', Raise e) => (t', Raise e)
  end.
Proof. reflexivity. Qed.

(** In every run, whatever the collaborators answer, an amount passed to
    [supply_eth] is the minimum-out that was passed to the swap; the
    amount the swap paid out plays no part. *)
Lemma supplied_is_minimum_out `{PyBuiltins} (self : Executor) (w : World) (a : Z) :
  In a (supplied (snd (execute_strategy self w))) ->
  exists amount, In (ESwapUsdcToEth amount a) (snd (execute_strategy self w)).
Proof.
  destruct (execute_strategy self w) as [b t] eqn:Hrun. cbn [snd].
  assert (Htrace : t = fst (execute_strategy_body self w [])).
  { unfold execute_strategy in Hrun.
    destruct (execute_strategy_body self w []) as [t' [b' | e]];
      injection Hrun as _ <-; reflexivity. }
  clear Hrun. revert Htrace.
  unfold execute_strategy_body.
  rewrite bind_run. unfold lift at 1.
  match goal with |- context [match ?r with Ok _ => _ | Raise _ => _ end] =>
    destruct r as [usdc_to_swap | e] end; [| intros -> []].
  rewrite bind_run. unfold call at 1. cbn [app].
  destruct (get_eth_price w) as [eth_price | e]; [| intros -> []].
  rewrite bind_run. unfold lift at 1.
  destruct (decimal_min_out usdc_to_swap eth_price) as [min_eth_amount | e];
    [| intros -> []].
  rewrite bind_run. unfold lift at 1.
  destruct (PyNum.int_truediv usdc_to_swap (10 ^ 6)) as [shown | e];
    [| intros -> []].
  rewrite bind_run. unfold call at 1. cbn [app].
  destruct (swap_usdc_to_eth w usdc_to_swap min_eth_amount) as [swapped | e];
    [| intros -> []].
  rewrite bind_run. unfold lift at 1.
  destruct (PyNum.int_truediv min_eth_amount (10 ^ 18)) as [shown' | e];
    [| intros -> []].
  rewrite bind_run. unfold call at 1. cbn [app].
  destruct (supply_eth w min_eth_amount) as [supply_receipt | e].
  - match goal with |- context [?rest [EGetEthPrice; ?sw; ?su]] =>
      assert (Hrest : emits (fun e => ~ is_supply e) rest);
      [| destruct (Hrest [EGetEthPrice; sw; su]) as (added & Ht & Hadded);
         destruct (rest [EGetEthPrice; sw; su]) as [t' r] ]
    end.
    { repeat first
        [ apply emits_lift
        | apply emits_call; cbn; tauto
        | apply emits_wait_for_deposit; cbn; tauto
        | apply emits_bind; [| intro] ]. }
    cbn [fst] in Ht. subst t'. cbn [fst]. intros -> Hin.
    assert (Hno : supplied added = []).
    { clear -Hadded. unfold supplied.
      induction Hadded as [| e l He _ IH]; [reflexivity |].
      cbn [flat_map]. rewrite IH.
      destruct e; cbn in *; try reflexivity. tauto. }
    unfold supplied in Hin. rewrite flat_map_app in Hin.
    fold (supplied added) in Hin. rewrite Hno in Hin. cbn in Hin.
    destruct Hin as [<- | []].
    exists usdc_to_swap. apply in_or_app. left. right. left. reflexivity.
  - cbn [fst]. intros -> [<- | []].
    exists usdc_to_swap. right. left. reflexivity.
Qed.

(** C3, on the input where it fails: the swap pays out 0.049975 ETH, and
    the amount supplied as collateral is the minimum-out guard of the
    swap, 0.04975 ETH. *)
Theorem supply_is_minimum_out_not_amount_received :
  let run := execute_strategy (H := Reference.builtins)
               Examples.executor Examples.world_ok in
  swap_usdc_to_eth Examples.world_ok 100000000 49750000000000000 =
    Ok {| swap_receipt := Examples.receipt "0x5a";
          amount_received := 49975000000000000 |}
  /\ run =
     (true,
      [EGetEthPrice;
       ESwapUsdcToEth 100000000 49750000000000000;
       ESupplyEth 49750000000000000;
       EGetReservesData;
       EBorrowAsset 39800000;
       EDepositUsdc 39.8;
       EWaitForReceipt "0x5d";
       EUserState; ESleep; EUserState; ESleep; EUserState;
       EMeta; EMarketOpen (NFloat 0.0498)])
  /\ supplied (snd run) = [49750000000000000]
  /\ 49750000000000000 <> 49975000000000000.
Proof.
  intros run. subst run.
  repeat split; try (vm_compute; reflexivity).
  discriminate.
Qed.

(** C4, as stated, fails: a run that fails at the borrow, after the swap
    and the supply went through, and a run that fails at the swap, before
    anything was executed, hand the caller the same value. *)
Lemma partial_failure_is_not_distinguished :
  let exec := execute_strategy (H := Reference.builtins) Examples.executor in
  exec Examples.world_swap_fails =
    (false, [EGetEthPrice; ESwapUsdcToEth 100000000 49750000000000000])
  /\ exec Examples.world_borrow_fails =
     (false, [EGetEthPrice;
              ESwapUsdcToEth 100000000 49750000000000000;
              ESupplyEth 49750000000000000;
              EGetReservesData;
              EBorrowAsset 39800000])
  /\ ~ (forall w1 w2 : World,
         fst (exec w1) = false ->
         swap_went_through w1 (snd (exec w1)) = true ->
         fst (exec w2) = false ->
         swap_went_through w2 (snd (exec w2)) = false ->
         fst (exec w1) <> fst (exec w2)).
Proof.
  intros exec. subst exec.
  split; [vm_compute; reflexivity |].
  split; [vm_compute; reflexivity |].
  intros Hdistinct.
  apply (Hdistinct Examples.world_borrow_fails Examples.world_swap_fails);
    vm_compute; reflexivity.
Qed.

(** C4, as amended: whatever exception ends the workflow, at whichever
    step and after whichever calls, the caller receives the plain value
    False. *)
Theorem failure_is_reported_as_false `{PyBuiltins} (self : Executor) (w : World)
    (t : list event) (e : exn) :
  execute_strategy_body self w [] = (t, Raise e) ->
  execute_strategy self w = (false, t).
Proof.
  intros Hbody. unfold execute_strategy. rewrite Hbody. reflexivity.
Qed.

End ExecutorFacts.

(** The failed borrow of the example is reported as False. *)
Lemma failed_borrow_is_reported_as_false :
  Executor.execute_strategy (H := Reference.builtins)
    Examples.executor Examples.world_borrow_fails =
  (false, [Executor.EGetEthPrice;
           Executor.ESwapUsdcToEth 100000000 49750000000000000;
           Executor.ESupplyEth 49750000000000000;
           Executor.EGetReservesData;
           Executor.EBorrowAsset 39800000]).
Proof.
  apply (failure_is_reported_as_false (H := Reference.builtins)
           Examples.executor Examples.world_borrow_fails _ ExternalError).
  vm_compute. reflexivity.
Defined.

(** * Further properties of the code *)

(** ** The risk calculator *)

Lemma float_of_int_0 : PyNum.float_of_int 0 = Ok 0%float.
Proof. vm_compute. reflexivity. Qed.

Lemma float_of_int_8760 : PyNum.float_of_int 8760 = Ok 8760%float.
Proof. vm_compute. reflexivity. Qed.

Lemma leb_false_not_zero (x : float) :
  (x <=? 0)%float = false -> (x =? 0)%float = false.
Proof.
  rewrite leb_spec, eqb_spec. unfold SFleb, SFeqb.
  destruct (SFcompare (Prim2SF x) (Prim2SF 0)) as [[| |] |];
    congruence.
Qed.

Lemma infinity_not_below (w : float) : (infinity <? w)%float = false.
Proof.
  rewrite ltb_spec. unfold SFltb.
  replace (Prim2SF infinity) with (S754_infinity false) by (vm_compute; reflexivity).
  destruct (Prim2SF w) as [s | s | | s m e]; cbn; try reflexivity.
  destruct s; reflexivity.
Qed.

(** X1: [calculate_net_apy] never raises: the test on the net worth keeps
    a zero divisor away from both divisions. It returns 0.0 when the net
    worth is not positive and the weighted difference of the two yields
    otherwise. *)
Theorem calculate_net_apy_never_raises
    (supply_apy borrow_apy supply_usd borrow_usd : float) :
  PositionCalculator.calculate_net_apy supply_apy borrow_apy supply_usd borrow_usd =
  Ok (if (supply_usd - borrow_usd <=? 0)%float then 0%float
      else (supply_apy * (supply_usd / (supply_usd - borrow_usd))
            - borrow_apy * (borrow_usd / (supply_usd - borrow_usd)))%float).
Proof.
  unfold PositionCalculator.calculate_net_apy, PyNum.float_div.
  destruct (supply_usd - borrow_usd <=? 0)%float eqn:Hnet; [reflexivity |].
  rewrite (leb_false_not_zero _ Hnet). reflexivity.
Qed.

(** X2: [is_near_liquidation] flags an account exactly when the
    liquidation threshold is positive and the buffer, as a percentage of
    it, is below the warning threshold; with a threshold that is not
    positive (no position value, say) it never flags, whatever the account
    value. *)
Theorem is_near_needs_positive_threshold
    (account_value total_open_position_usd : float) (max_leverage : Z)
    (warning_threshold_pct : float) (r : RiskMetrics) :
  PositionCalculator.is_near_liquidation
    account_value total_open_position_usd max_leverage warning_threshold_pct
  = Ok r ->
  (is_near r = true <->
   (0 <? liquidation_threshold r)%float = true
   /\ ((account_value - liquidation_threshold r) / liquidation_threshold r * 100
       <? warning_threshold_pct)%float = true).
Proof.
  unfold PositionCalculator.is_near_liquidation,
         PositionCalculator.calculate_liquidation_threshold.
  destruct (PositionCalculator.calculate_maintenance_margin max_leverage)
    as [mm | e]; cbn [res_bind]; [| discriminate].
  destruct (0 <? mm * total_open_position_usd)%float eqn:Hpos.
  - rewrite mul_int_100. cbn [res_bind]. intros [= <-]. cbn.
    rewrite Hpos. split; [intros Hn; split; [reflexivity | exact Hn] | intros [_ Hn]; exact Hn].
  - cbn [res_bind]. intros [= <-]. cbn.
    rewrite Hpos, infinity_not_below. split; [discriminate | intros [Hf _]; discriminate Hf].
Qed.

(** With a leverage of 0 the maintenance margin divides by zero, and
    so do the liquidation threshold and the liquidation check, whatever
    their other arguments. *)
Lemma zero_leverage_is_zero_division
    (account_value total_open_position_usd warning_threshold_pct : float) :
  PositionCalculator.calculate_liquidation_threshold total_open_position_usd 0
  = Raise ZeroDivisionError
  /\ PositionCalculator.is_near_liquidation
       account_value total_open_position_usd 0 warning_threshold_pct
     = Raise ZeroDivisionError.
Proof. split; reflexivity. Qed.

Section MoreCalculatorFacts.
Context `{PyBuiltins}.

(** X3: compounding over zero payments a year divides by zero inside
    [calculate_apy]; the exception is absorbed and 0.0 returned, for every
    rate. *)
Theorem calculate_apy_compound_zero_payments (rate : float) :
  PositionCalculator.calculate_apy rate 0 true = 0%float.
Proof.
  unfold PositionCalculator.calculate_apy, PositionCalculator.calculate_apy_body.
  cbv iota. unfold PyNum.mul_int at 2, PyNum.div_int.
  rewrite float_of_int_0. cbn [res_bind].
  replace (0 =? 0)%float with true by (vm_compute; reflexivity).
  reflexivity.
Qed.

Lemma calculate_apy_hourly (rate : float) :
  PositionCalculator.calculate_apy rate 8760 false = (rate * 8760 * 100)%float.
Proof.
  unfold PositionCalculator.calculate_apy, PositionCalculator.calculate_apy_body.
  cbv iota. unfold PyNum.mul_int at 1.
  rewrite float_of_int_8760. cbn [res_bind]. rewrite mul_int_100. reflexivity.
Qed.

End MoreCalculatorFacts.

(** A flagged and an unflagged account. *)
Lemma is_near_needs_positive_threshold_example :
  is_near {| is_near := true; maintenance_margin := 0.025;
             liquidation_threshold := 155; margin_buffer := 5;
             buffer_percentage := 5 / 155 * 100 |} = true <->
  (0 <? 155)%float = true
  /\ ((160 - 155) / 155 * 100 <? 10)%float = true.
Proof.
  apply (is_near_needs_positive_threshold 160 6200 20 10
           {| is_near := true; maintenance_margin := 0.025;
              liquidation_threshold := 155; margin_buffer := 5;
              buffer_percentage := 5 / 155 * 100 |}).
  vm_compute. reflexivity.
Defined.

(** ** The position monitor *)

Section StringKeys.
Context {V : Type}.

Lemma key_eqb_str_inv (s : string) (k : json) :
  Py.key_eqb (JStr s) k = true -> k = JStr s.
Proof.
  destruct k; cbn; try discriminate.
  intros Heq. apply String.eqb_eq in Heq. subst. reflexivity.
Qed.

Lemma lookup_set_same_str (s : string) (v : V) (d : Py.dict V) :
  Py.lookup (JStr s) (Py.set (JStr s) v d) = Some v.
Proof.
  induction d as [| [k0 v0] d IH]; cbn [Py.set Py.lookup].
  - cbn. rewrite String.eqb_refl. reflexivity.
  - destruct (Py.key_eqb (JStr s) k0) eqn:Hk; cbn [Py.lookup]; rewrite Hk.
    + reflexivity.
    + exact IH.
Qed.

Lemma lookup_set_other_str (s s' : string) (v : V) (d : Py.dict V) :
  s' <> s ->
  Py.lookup (JStr s') (Py.set (JStr s) v d) = Py.lookup (JStr s') d.
Proof.
  intros Hneq.
  induction d as [| [k0 v0] d IH]; cbn [Py.set Py.lookup].
  - cbn. apply String.eqb_neq in Hneq. rewrite Hneq. reflexivity.
  - destruct (Py.key_eqb (JStr s) k0) eqn:Hk; cbn [Py.lookup].
    + apply key_eqb_str_inv in Hk. subst k0. cbn.
      apply String.eqb_neq in Hneq. rewrite Hneq. reflexivity.
    + rewrite IH. reflexivity.
Qed.

Lemma set_keys (k : json) (v : V) (d : Py.dict V) (k' : json) :
  In k' (map fst (Py.set k v d)) -> In k' (map fst d) \/ k' = k.
Proof.
  induction d as [| [k0 v0] d IH]; cbn.
  - intros [<- | []]. right. reflexivity.
  - destruct (Py.key_eqb k k0); cbn.
    + intros Hin. left. exact Hin.
    + intros [<- | Hin]; [left; left; reflexivity |].
      destruct (IH Hin) as [Hd | ->]; [left; right; exact Hd | right; reflexivity].
Qed.

End StringKeys.

Section MoreMonitorFacts.
Context `{PyBuiltins}.
Import Monitor.

Ltac step_binds Hb :=
  repeat match type of Hb with
  | res_bind ?c _ = Ok _ =>
      let E := fresh "E" in
      destruct c eqn:E; cbn [res_bind] in Hb; [| discriminate Hb]
  | (if ?b then Ok None else _) = Ok (Some _) =>
      let E := fresh "E" in
      destruct b eqn:E; [discriminate Hb |]
  end.

(** How the fields of a stored entry hang together. *)
Lemma build_position_fields (self : PositionMonitor) (ch_state position : json)
    (c : json) (info : PositionInfo) :
  build_position self ch_state position = Ok (Some (c, info)) ->
  projectedApy (funding info) = (currentRate (funding info) * 8760 * 100)%float
  /\ funding_apy info = projectedApy (funding info)
  /\ current_funding_rate info = currentRate (funding info)
  /\ notional_usd info = (size info * entry_price info)%float
  /\ PositionCalculator.is_near_liquidation
       (account_value info) (position_usd info) (max_leverage info) 10
     = Ok (risk_metrics info).
Proof.
  intros Hb. unfold build_position in Hb.
  step_binds Hb.
  rewrite !calculate_apy_hourly in Hb.
  injection Hb as <- <-. cbn.
  repeat split; try reflexivity. assumption.
Qed.

Lemma process_positions_all (P : PositionInfo -> Prop)
    (self : PositionMonitor) (ch_state : json) (l : list json) :
  (forall position c info,
      build_position self ch_state position = Ok (Some (c, info)) -> P info) ->
  forall acc,
    Forall P (Py.values acc) ->
    Forall P (Py.values (fst (process_positions self ch_state l acc))).
Proof.
  intros Hbuilt.
  induction l as [| position l IH]; intros acc Hacc; cbn [process_positions].
  - exact Hacc.
  - destruct (build_position self ch_state position)
      as [[[c info] |] | e] eqn:Hb.
    + apply IH. apply set_values_Forall; [exact Hacc |].
      apply (Hbuilt _ _ _ Hb).
    + apply IH. exact Hacc.
    + exact Hacc.
Qed.

(** A property every iteration of the loop gives its entry holds of every
    entry of every set a monitor ever holds. *)
Lemma derived_invariant (P : PositionInfo -> Prop) :
  (forall self ch_state position c info,
      build_position self ch_state position = Ok (Some (c, info)) -> P info) ->
  forall cs, Forall P (Py.values (positions (run cs))).
Proof.
  intros Hbuilt cs. unfold run.
  assert (Hgen : forall self,
            Forall P (Py.values (positions self)) ->
            Forall P (Py.values (positions (fold_left step cs self)))).
  { induction cs as [| c cs IH]; intros self Hs; cbn [fold_left]; [exact Hs |].
    apply IH. destruct c as [msg | data |]; cbn [step].
    - exact Hs.
    - rewrite update_asset_context_positions. exact Hs.
    - pose proof (process_position_data_cases self) as Hc.
      destruct (clearinghouse (latest_state self)) as [ch_state |].
      + destruct (let? ap := Py.get ch_state "assetPositions" (JList []) in Py.iter ap)
          as [l | e]; rewrite Hc; cbn.
        * apply process_positions_all; [apply Hbuilt | constructor].
        * constructor.
      + rewrite Hc. exact Hs. }
  apply Hgen. constructor.
Qed.

(** X4: whatever calls a monitor has received, every entry it tracks
    shows as projected APY its stored current rate times 8760 hourly
    payments times 100, and its two copies of the rate and of the APY
    agree. *)
Theorem projected_apy_is_hourly_rate_annualized (cs : list call) :
  Forall (fun info =>
            projectedApy (funding info) =
              (currentRate (funding info) * 8760 * 100)%float
            /\ funding_apy info = projectedApy (funding info)
            /\ current_funding_rate info = currentRate (funding info))
         (Py.values (positions (run cs))).
Proof.
  apply derived_invariant. intros self ch_state position c info Hb.
  destruct (build_position_fields _ _ _ _ _ Hb) as (Ha & Hb' & Hc & _).
  repeat split; assumption.
Qed.

(** X5: every tracked entry carries the risk metrics the liquidation
    check gives for its own account value, position value and maximum
    leverage with the threshold 10; in particular no tracked entry has a
    maximum leverage of 0. *)
Theorem risk_metrics_are_of_the_entry (cs : list call) :
  Forall (fun info =>
            PositionCalculator.is_near_liquidation
              (account_value info) (position_usd info) (max_leverage info) 10
            = Ok (risk_metrics info)
            /\ max_leverage info <> 0)
         (Py.values (positions (run cs))).
Proof.
  apply derived_invariant. intros self ch_state position c info Hb.
  destruct (build_position_fields _ _ _ _ _ Hb) as (_ & _ & _ & _ & Hrisk).
  split; [exact Hrisk |].
  intros Hzero. rewrite Hzero in Hrisk. discriminate Hrisk.
Qed.

(** X6: the notional of every tracked entry is its signed size times its
    entry price, so that of a short is negative. *)
Theorem notional_is_signed (cs : list call) :
  Forall (fun info => notional_usd info = (size info * entry_price info)%float)
         (Py.values (positions (run cs))).
Proof.
  apply derived_invariant. intros self ch_state position c info Hb.
  destruct (build_position_fields _ _ _ _ _ Hb) as (_ & _ & _ & Hn & _).
  exact Hn.
Qed.

Lemma is_near_of_check (av total : float) (ml : Z) (w : float) (r : RiskMetrics) :
  PositionCalculator.is_near_liquidation av total ml w = Ok r ->
  is_near r = (buffer_percentage r <? w)%float.
Proof.
  unfold PositionCalculator.is_near_liquidation.
  destruct (PositionCalculator.calculate_maintenance_margin ml); [| discriminate].
  cbn [res_bind].
  destruct (PositionCalculator.calculate_liquidation_threshold total ml);
    [| discriminate].
  cbn [res_bind].
  match goal with |- context [res_bind ?c _] => destruct c; [| discriminate] end.
  cbn [res_bind]. intros [= <-]. reflexivity.
Qed.

Lemma risk_metrics_checked (cs : list call) :
  Forall (fun info =>
            is_near (risk_metrics info) =
            (buffer_percentage (risk_metrics info) <? 10)%float)
         (Py.values (positions (run cs))).
Proof.
  apply derived_invariant. intros self ch_state position c info Hb.
  destruct (build_position_fields _ _ _ _ _ Hb) as (_ & _ & _ & _ & Hrisk).
  apply (is_near_of_check _ _ _ _ _ Hrisk).
Qed.

(** X7: [monitor_liquidation_risk] warns about exactly the tracked
    entries whose buffer percentage is below 10, in the order they are
    tracked; the threshold it is passed plays no part. *)
Theorem liquidation_warnings_use_fixed_threshold
    (cs : list call) (warning_threshold_pct : float) :
  monitor_liquidation_risk (run cs) warning_threshold_pct =
  filter (fun info => (buffer_percentage (risk_metrics info) <? 10)%float)
         (Py.values (positions (run cs))).
Proof.
  unfold monitor_liquidation_risk.
  pose proof (risk_metrics_checked cs) as Hall.
  induction (Py.values (positions (run cs))) as [| info l IH]; [reflexivity |].
  inversion Hall as [| ? ? Hinfo Hrest]; subst.
  cbn [filter]. rewrite (IH Hrest), Hinfo. reflexivity.
Qed.

End MoreMonitorFacts.

Section MonitorEdges.
Context `{PyBuiltins}.
Import Monitor.

Lemma process_positions_app (self : PositionMonitor) (ch_state : json)
    (l1 l2 : list json) :
  forall acc,
    process_positions self ch_state (l1 ++ l2)%list acc =
    match process_positions self ch_state l1 acc with
    | (acc', Ok _) => process_positions self ch_state l2 acc'
    | (acc', Raise e) => (acc', Raise e)
    end.
Proof.
  induction l1 as [| position l1 IH]; intros acc; cbn [app process_positions].
  - reflexivity.
  - destruct (build_position self ch_state position) as [[[c info] |] | e];
      [apply IH | apply IH | reflexivity].
Qed.

(** X8: a reported position that raises (a missing field, a leverage of
    0) ends [process_position_data] with that exception: the entries
    built from the positions before it are tracked, the positions after it
    are not looked at. *)
Theorem malformed_position_cuts_the_set_short (self : PositionMonitor)
    (ch_state : json) (before : list json) (position : json)
    (after : list json) (e : exn) :
  clearinghouse (latest_state self) = Some ch_state ->
  (let? ap := Py.get ch_state "assetPositions" (JList []) in Py.iter ap)
  = Ok (before ++ position :: after)%list ->
  snd (process_positions self ch_state before []) = Ok tt ->
  build_position self ch_state position = Raise e ->
  process_position_data self =
  (with_positions self (fst (process_positions self ch_state before [])),
   Raise e).
Proof.
  intros Hch Hl Hbefore Hraise.
  pose proof (process_position_data_cases self) as Hc.
  rewrite Hch, Hl in Hc. rewrite Hc.
  rewrite process_positions_app.
  destruct (process_positions self ch_state before []) as [acc r].
  cbn [snd] in Hbefore. subst r.
  cbn [process_positions]. rewrite Hraise. reflexivity.
Qed.

(** X9: a context update that succeeds for a coin named by a string is
    what the two getters return for that coin afterwards; the rates and
    prices of all other coins, the latest state and the tracked set stay
    as they were. *)
Theorem update_asset_context_round_trip (self self' : PositionMonitor)
    (data : json) (s : string) :
  update_asset_context self data = (self', Ok tt) ->
  Py.item data "coin" = Ok (JStr s) ->
  exists ctx f mp,
    Py.item data "ctx" = Ok ctx
    /\ item_float ctx "funding" = Ok f
    /\ item_float ctx "markPx" = Ok mp
    /\ get_funding_rate self' (JStr s) = Ok f
    /\ get_mark_price self' (JStr s) = Ok mp
    /\ (forall s', s' <> s ->
          get_funding_rate self' (JStr s') = get_funding_rate self (JStr s')
          /\ get_mark_price self' (JStr s') = get_mark_price self (JStr s'))
    /\ latest_state self' = latest_state self
    /\ positions self' = positions self.
Proof.
  intros Hup Hcoin. unfold update_asset_context in Hup. rewrite Hcoin in Hup.
  cbn [res_bind] in Hup.
  destruct (Py.item data "ctx") as [ctx | e] eqn:Hctx; cbn [res_bind] in Hup;
    [| discriminate Hup].
  destruct (item_float ctx "funding") as [f | e] eqn:Hf; cbn [res_bind] in Hup;
    [| discriminate Hup].
  destruct (item_float ctx "markPx") as [mp | e] eqn:Hmp; cbn [res_bind] in Hup;
    [| discriminate Hup].
  cbn in Hup. injection Hup as <-.
  exists ctx, f, mp. unfold get_funding_rate, get_mark_price. cbn.
  rewrite lookup_set_same_str.
  split; [reflexivity |]. split; [exact Hf |]. split; [exact Hmp |].
  do 2 (split; [reflexivity |]).
  split; [| split; reflexivity].
  intros s' Hneq. rewrite (lookup_set_other_str _ _ _ _ Hneq).
  split; reflexivity.
Qed.

(** X10: an entry derived for a coin that has no cached context gets the
    default rate: its current rate and its projected APY are equal to 0
    (0.0 for a short, -0.0 for a long). *)
Theorem uncached_coin_has_zero_rate (self : PositionMonitor) (k : json)
    (info : PositionInfo) :
  clearinghouse (latest_state self) <> None ->
  In (k, info) (positions (fst (process_position_data self))) ->
  Py.lookup (coin info) (asset_contexts self) = None ->
  (currentRate (funding info) =? 0)%float = true
  /\ (projectedApy (funding info) =? 0)%float = true.
Proof.
  intros Hch Hin Hnone.
  destruct (clearinghouse (latest_state self)) as [ch_state |] eqn:Hc;
    [| congruence].
  destruct (processed_entry_origin _ _ _ Hc Hin) as (l & position & c & _ & _ & Hb).
  cbn [snd] in Hb.
  destruct (build_position_fields _ _ _ _ _ Hb) as (Hapy & _).
  apply build_position_stored in Hb.
  destruct Hb as (pos & szi & raw & cum & so & _ & _ & Hcoin & _ & _ & _ & Hraw & Hrate & _).
  subst c. unfold get_funding_rate in Hraw. rewrite Hnone in Hraw.
  destruct (Py.hashable (coin info)); [| discriminate Hraw].
  injection Hraw as <-.
  rewrite Hapy, Hrate.
  destruct (0 <? size info)%float; split; vm_compute; reflexivity.
Qed.

End MonitorEdges.

(** The broken position of the example cuts the set short after ETH. *)
Lemma malformed_position_example :
  Monitor.process_position_data (H := Reference.builtins) Examples.monitor_broken =
  (Monitor.with_positions Examples.monitor_broken
     (fst (Monitor.process_positions (H := Reference.builtins)
             Examples.monitor_broken
             (Examples.clearinghouse_state
                [Examples.eth_long; Examples.doge_broken; Examples.btc_short])
             [Examples.eth_long] [])),
   Raise ZeroDivisionError).
Proof.
  apply (malformed_position_cuts_the_set_short (H := Reference.builtins)
           Examples.monitor_broken
           (Examples.clearinghouse_state
              [Examples.eth_long; Examples.doge_broken; Examples.btc_short])
           [Examples.eth_long] Examples.doge_broken [Examples.btc_short]
           ZeroDivisionError).
  - vm_compute. reflexivity.
  - vm_compute. reflexivity.
  - vm_compute. reflexivity.
  - vm_compute. reflexivity.
Defined.

Lemma broken_snapshot_tracks_eth_only :
  positions (fst (Monitor.process_position_data (H := Reference.builtins)
                    Examples.monitor_broken))
  = [(JStr "ETH", Examples.eth_info)].
Proof. vm_compute. reflexivity. Qed.

(** The ETH context of the example, read back. *)
Lemma update_asset_context_example :
  exists ctx f mp,
    Py.item Examples.eth_ctx "ctx" = Ok ctx
    /\ Monitor.item_float (H := Reference.builtins) ctx "funding" = Ok f
    /\ Monitor.item_float (H := Reference.builtins) ctx "markPx" = Ok mp
    /\ Monitor.get_funding_rate
         (fst (Monitor.update_asset_context (H := Reference.builtins)
                 Monitor.init Examples.eth_ctx)) (JStr "ETH") = Ok f
    /\ Monitor.get_mark_price
         (fst (Monitor.update_asset_context (H := Reference.builtins)
                 Monitor.init Examples.eth_ctx)) (JStr "ETH") = Ok mp
    /\ (forall s', s' <> "ETH" ->
          Monitor.get_funding_rate
            (fst (Monitor.update_asset_context (H := Reference.builtins)
                    Monitor.init Examples.eth_ctx)) (JStr s')
          = Monitor.get_funding_rate Monitor.init (JStr s')
          /\ Monitor.get_mark_price
               (fst (Monitor.update_asset_context (H := Reference.builtins)
                       Monitor.init Examples.eth_ctx)) (JStr s')
             = Monitor.get_mark_price Monitor.init (JStr s'))
    /\ latest_state
         (fst (Monitor.update_asset_context (H := Reference.builtins)
                 Monitor.init Examples.eth_ctx)) = latest_state Monitor.init
    /\ positions
         (fst (Monitor.update_asset_context (H := Reference.builtins)
                 Monitor.init Examples.eth_ctx)) = positions Monitor.init.
Proof.
  apply (update_asset_context_round_trip (H := Reference.builtins)
           Monitor.init _ Examples.eth_ctx "ETH").
  - vm_compute. reflexivity.
  - vm_compute. reflexivity.
Defined.

(** The long ETH position derived before any context was cached. *)
Lemma uncached_coin_example :
  (currentRate (funding Examples.eth_info_no_context) =? 0)%float = true
  /\ (projectedApy (funding Examples.eth_info_no_context) =? 0)%float = true.
Proof.
  apply (uncached_coin_has_zero_rate (H := Reference.builtins)
           Examples.monitor_no_context (JStr "ETH") Examples.eth_info_no_context).
  - vm_compute. discriminate.
  - vm_compute. left. reflexivity.
  - vm_compute. reflexivity.
Defined.

(** ** The stream and the handlers of the data manager *)

Section StreamFacts.
Context `{PyBuiltins}.
Import Monitor Stream.

Lemma registered_handlers :
  registered = [("OrderUpdates", OrderUpdate); ("UserFills", TradeUpdate);
                ("activeAssetCtx", AssetUpdate); ("webData2", AccountUpdate)].
Proof. reflexivity. Qed.

Lemma handler_of_registered (k : string) (cb : callback) :
  handler_of registered k = Some cb ->
  (k = "OrderUpdates" /\ cb = OrderUpdate)
  \/ (k = "UserFills" /\ cb = TradeUpdate)
  \/ (k = "activeAssetCtx" /\ cb = AssetUpdate)
  \/ (k = "webData2" /\ cb = AccountUpdate).
Proof.
  rewrite registered_handlers. cbn [handler_of].
  destruct (String.eqb_spec k "OrderUpdates") as [-> |];
    [intros [= <-]; tauto |].
  destruct (String.eqb_spec k "UserFills") as [-> |];
    [intros [= <-]; tauto |].
  destruct (String.eqb_spec k "activeAssetCtx") as [-> |];
    [intros [= <-]; tauto |].
  destruct (String.eqb_spec k "webData2") as [-> |];
    [intros [= <-]; tauto |].
  discriminate.
Qed.

Lemma eq_str_inv (v : json) (s : string) : Py.eq_str v s = true -> v = JStr s.
Proof.
  destruct v; cbn; try discriminate.
  intros Heq. apply String.eqb_eq in Heq. subst. reflexivity.
Qed.

Lemma context_coin_inv (coin : json) :
  existsb (Py.eq_str coin) context_coins = true ->
  exists s, coin = JStr s /\ In s context_coins.
Proof.
  intros Hex. apply existsb_exists in Hex. destruct Hex as (s & Hin & Heq).
  exists s. split; [apply eq_str_inv; exact Heq | exact Hin].
Qed.

Lemma subscribed_inv (channel : json) (cb : callback) :
  subscribed registered channel = Ok (Some cb) ->
  exists k, channel = JStr k /\ handler_of registered k = Some cb.
Proof.
  unfold subscribed.
  destruct channel; cbn; try discriminate.
  intros [= Hk]. eexists. split; [reflexivity | exact Hk].
Qed.

Ltac route_binds Hr :=
  repeat match type of Hr with
  | res_bind ?c _ = Ok _ =>
      let E := fresh "E" in
      destruct c eqn:E; cbn [res_bind] in Hr; [| discriminate Hr]
  | (if ?b then _ else Ok None) = Ok (Some _) =>
      let E := fresh "E" in
      destruct b eqn:E; [| discriminate Hr]
  | match ?o with Some _ => _ | None => Ok None end = Ok (Some _) =>
      let E := fresh "E" in
      destruct o eqn:E; [| discriminate Hr]
  end.

(** A context update only gets through for one of the three coins. *)
Lemma route_asset_update (message payload : json) :
  route registered message = Ok (Some (AssetUpdate, payload)) ->
  exists s, Py.item payload "coin" = Ok (JStr s) /\ In s context_coins.
Proof.
  intros Hr. unfold route in Hr.
  destruct (Py.get message "channel" JNull) as [channel | e];
    cbn [res_bind] in Hr; [| discriminate Hr].
  destruct (Py.eq_str channel "activeAssetCtx") eqn:Hchan.
  - destruct (Py.contains message "data") as [has_data | e];
      cbn [res_bind] in Hr; [| discriminate Hr].
    destruct (Py.item message "data") as [data | e] eqn:Hdata.
    + route_binds Hr.
      injection Hr as _ <-.
      match goal with Hc : existsb _ context_coins = true |- _ =>
        destruct (context_coin_inv _ Hc) as (s & -> & Hin) end.
      exists s. split; assumption.
    + destruct has_data; cbn [res_bind] in Hr; discriminate Hr.
  - destruct (subscribed registered channel) as [[cb |] | e] eqn:Hsub;
      cbn [res_bind] in Hr; try discriminate Hr.
    destruct (Py.item message "data"); cbn [res_bind] in Hr; [| discriminate Hr].
    injection Hr as -> _.
    destruct (subscribed_inv _ _ Hsub) as (k & -> & Hk).
    destruct (handler_of_registered _ _ Hk)
      as [[_ Hcb] | [[_ Hcb] | [[-> _] | [_ Hcb]]]]; try discriminate Hcb.
    cbn in Hchan. discriminate Hchan.
Qed.

Lemma process_position_data_asset_contexts (self : PositionMonitor) :
  asset_contexts (fst (process_position_data self)) = asset_contexts self.
Proof.
  pose proof (process_position_data_cases self) as Hc.
  destruct (clearinghouse (latest_state self)) as [ch_state |].
  - destruct (let? ap := Py.get ch_state "assetPositions" (JList []) in Py.iter ap);
      rewrite Hc; reflexivity.
  - rewrite Hc. reflexivity.
Qed.

Lemma handle_message_keys (self : ProtocolDataManager) (message : json) :
  Forall allowed_key (map fst (asset_contexts (position_monitor self))) ->
  Forall allowed_key
    (map fst (asset_contexts
                (position_monitor (_handle_message registered self message)))).
Proof.
  intros Hself. unfold _handle_message.
  destruct (route registered message) as [[[cb payload] |] | e] eqn:Hr;
    try exact Hself.
  destruct cb; cbn [invoke fst]; try exact Hself.
  - destruct (route_asset_update _ _ Hr) as (s & Hcoin & Hin).
    unfold _handle_asset_update, update_asset_context. rewrite Hcoin.
    cbn [res_bind].
    match goal with |- context [res_bind ?c _] => destruct c as [ctx | e] end;
      cbn [res_bind]; [| exact Hself].
    match goal with |- context [res_bind ?c _] => destruct c as [f | e] end;
      cbn [res_bind]; [| exact Hself].
    match goal with |- context [res_bind ?c _] => destruct c as [mp | e] end;
      cbn [res_bind]; [| exact Hself].
    cbn. apply Forall_forall. intros k Hk.
    destruct (set_keys _ _ _ _ Hk) as [Hold | ->].
    + rewrite Forall_forall in Hself. apply Hself. exact Hold.
    + exists s. split; [reflexivity | exact Hin].
  - unfold _handle_account_update.
    pose proof (process_position_data_asset_contexts
                  (update_state (position_monitor self) payload)) as Hctx.
    destruct (process_position_data (update_state (position_monitor self) payload))
      as [monitor r].
    cbn [fst] in Hctx.
    destruct (let? _ := r in get_position_info monitor JNull); cbn;
      rewrite Hctx; exact Hself.
Qed.

(** X11: whatever messages the stream delivers, the context cache of the
    monitor only ever holds entries for ETH, BTC and SOL. *)
Theorem context_cache_holds_three_coins (messages : list json) :
  Forall (fun k => exists s, k = JStr s /\ In s ["ETH"; "BTC"; "SOL"])
         (map fst (asset_contexts (position_monitor (deliver messages)))).
Proof.
  unfold deliver.
  assert (Hgen : forall self,
            Forall allowed_key (map fst (asset_contexts (position_monitor self))) ->
            Forall allowed_key
              (map fst (asset_contexts (position_monitor
                 (fold_left (_handle_message registered) messages self))))).
  { induction messages as [| m ms IH]; intros self Hs; cbn [fold_left];
      [exact Hs |].
    apply IH. apply handle_message_keys. exact Hs. }
  apply (Hgen initialized). constructor.
Qed.

(** X12: a message changes the data manager only if its channel is
    activeAssetCtx or webData2: anything else, a message without a
    channel or one that is no dict included, is dropped. *)
Theorem only_two_channels_are_acted_on (self : ProtocolDataManager)
    (message : json) :
  Py.get message "channel" JNull <> Ok (JStr "activeAssetCtx") ->
  Py.get message "channel" JNull <> Ok (JStr "webData2") ->
  _handle_message registered self message = self.
Proof.
  intros Hasset Haccount. unfold _handle_message, route.
  destruct (Py.get message "channel" JNull) as [channel | e];
    cbn [res_bind]; [| reflexivity].
  destruct (Py.eq_str channel "activeAssetCtx") eqn:Hchan.
  { apply eq_str_inv in Hchan. subst channel. congruence. }
  destruct (subscribed registered channel) as [[cb |] | e] eqn:Hsub;
    cbn [res_bind]; try reflexivity.
  destruct (Py.item message "data") as [payload | e]; cbn [res_bind];
    [| reflexivity].
  destruct (subscribed_inv _ _ Hsub) as (k & -> & Hk).
  destruct (handler_of_registered _ _ Hk)
    as [[_ ->] | [[_ ->] | [[-> _] | [-> _]]]];
    try reflexivity; congruence.
Qed.



End StreamFacts.

(** A funding event leaves the manager as it is. *)
Lemma funding_events_are_dropped :
  Stream._handle_message (H := Reference.builtins) Stream.registered
    Stream.initialized Examples.funding_event
  = Stream.initialized.
Proof.
  apply (only_two_channels_are_acted_on (H := Reference.builtins)
           Stream.initialized Examples.funding_event).
  - vm_compute. discriminate.
  - vm_compute. discriminate.
Defined.

(** ** The execution workflow *)

Section ExecutorRuns.
Import Executor.
Local Open Scope exec_scope.

Lemma polls_app (t1 t2 : list event) : polls (t1 ++ t2)%list = (polls t1 + polls t2)%nat.
Proof. unfold polls. rewrite filter_app, length_app. reflexivity. Qed.

Section Pam.
Context {A B : Type}.

Lemma pam_ret (a : A) : polls_at_most 0 (ret a).
Proof. intros t. unfold ret. cbn [fst]. lia. Qed.

Lemma pam_lift (r : res A) : polls_at_most 0 (lift r).
Proof. intros t. unfold lift. cbn [fst]. lia. Qed.

Lemma pam_call (e : event) (r : res A) :
  e <> EUserState -> polls_at_most 0 (call e r).
Proof.
  intros He t. unfold call. cbn [fst]. rewrite polls_app.
  destruct e; cbn; try lia. congruence.
Qed.

Lemma pam_poll (r : res A) : polls_at_most 1 (call EUserState r).
Proof. intros t. unfold call. cbn [fst]. rewrite polls_app. cbn. lia. Qed.

Lemma pam_bind (n m : nat) (c : M A) (k : A -> M B) :
  polls_at_most n c -> (forall a, polls_at_most m (k a)) ->
  polls_at_most (n + m) (bind c k).
Proof.
  intros Hc Hk t. specialize (Hc t). unfold bind.
  destruct (c t) as [t' [a | e]]; cbn [fst] in *.
  - specialize (Hk a t'). lia.
  - lia.
Qed.

Lemma pam_bind_zero_then (m : nat) (c : M A) (k : A -> M B) :
  polls_at_most 0 c -> (forall a, polls_at_most m (k a)) ->
  polls_at_most m (bind c k).
Proof. intros Hc Hk. apply (pam_bind 0 m); assumption. Qed.

Lemma pam_bind_then_zero (n : nat) (c : M A) (k : A -> M B) :
  polls_at_most n c -> (forall a, polls_at_most 0 (k a)) ->
  polls_at_most n (bind c k).
Proof.
  intros Hc Hk. replace n with (n + 0)%nat by lia. apply pam_bind; assumption.
Qed.

End Pam.

Lemma pam_wait_for_deposit `{PyBuiltins} (w : World) (borrow_amount : Z) :
  forall n k, polls_at_most n (wait_for_deposit w borrow_amount n k).
Proof.
  induction n as [| n IH]; intros k; cbn [wait_for_deposit].
  - apply pam_ret.
  - change (S n) with (1 + (0 + (0 + (0 + n))))%nat.
    apply pam_bind; [apply pam_poll |]. intros hl_balance.
    apply pam_bind; [apply pam_lift |]. intros v.
    apply pam_bind; [apply pam_lift |]. intros needed.
    destruct (needed <=? v)%float.
    + intros t. unfold ret. cbn [fst]. lia.
    + change n with (0 + n)%nat at 1.
      apply pam_bind; [apply pam_call; discriminate |]. intros _. apply IH.
Qed.

(** X14: in every run, whatever the collaborators answer, the exchange
    account is polled at most [max_retries] = 30 times. *)
Theorem at_most_thirty_polls `{PyBuiltins} (self : Executor) (w : World) :
  max_retries = 30%nat
  /\ (polls (snd (execute_strategy self w)) <= max_retries)%nat.
Proof.
  split; [reflexivity |].
  assert (Hbody : polls_at_most max_retries (execute_strategy_body self w)).
  { unfold execute_strategy_body.
    repeat first
      [ apply pam_lift
      | apply pam_call; discriminate
      | apply pam_bind_then_zero; [apply pam_wait_for_deposit | intro]
      | apply pam_bind_zero_then; [| intro] ]. }
  specialize (Hbody []). unfold execute_strategy.
  destruct (execute_strategy_body self w []) as [t [b | e]];
    cbn [fst snd] in *; change (polls []) with 0%nat in Hbody; lia.
Qed.

Lemma bind_lift {A B} (r : res A) (k : A -> M B) (t : list event) :
  bind (lift r) k t =
  match r with
  | Ok a => k a t
  | Raise e => (t, Raise e)
  end.
Proof. unfold bind, lift. destruct r; reflexivity. Qed.

Lemma bind_call {A B} (ev : event) (r : res A) (k : A -> M B) (t : list event) :
  bind (call ev r) k t =
  match r with
  | Ok a => k a (t ++ [ev])%list
  | Raise e => ((t ++ [ev])%list, Raise e)
  end.
Proof. unfold bind, call. destruct r; reflexivity. Qed.

Ltac run_step H :=
  first [rewrite bind_lift in H | rewrite bind_call in H];
  cbn beta iota in H;
  try match type of H with
  | match ?r with Ok _ => _ | Raise _ => _ end = _ =>
      let E := fresh "E" in
      destruct r eqn:E; [cbn beta in H | discriminate H]
  end.

Ltac run_step_or H tac :=
  first [rewrite bind_lift in H | rewrite bind_call in H];
  cbn beta iota in H;
  try match type of H with
  | match ?r with Ok _ => _ | Raise _ => _ end = _ =>
      let E := fresh "E" in
      destruct r eqn:E; [cbn beta in H | tac]
  end.

Lemma trace_of_run `{PyBuiltins} (self : Executor) (w : World) :
  snd (execute_strategy self w) = fst (execute_strategy_body self w []).
Proof.
  unfold execute_strategy.
  destruct (execute_strategy_body self w []) as [t [b | e]]; reflexivity.
Qed.

Lemma result_of_run `{PyBuiltins} (self : Executor) (w : World) :
  fst (execute_strategy self w) = true ->
  snd (execute_strategy_body self w []) = Ok true.
Proof.
  unfold execute_strategy.
  destruct (execute_strategy_body self w []) as [t [b | e]]; cbn;
    [intros -> | discriminate]; reflexivity.
Qed.

(** X15: [execute_strategy] returns True only when the short was
    ordered and the exchange acknowledged the order with status ok and a
    fill for every status. *)
Theorem true_means_hedge_acknowledged `{PyBuiltins} (self : Executor) (w : World) :
  fst (execute_strategy self w) = true ->
  exists sz order_result,
    In (EMarketOpen sz) (snd (execute_strategy self w))
    /\ market_open w sz = Ok order_result
    /\ order_succeeded order_result = Ok true.
Proof.
  intros Htrue. apply result_of_run in Htrue. rewrite trace_of_run.
  destruct (execute_strategy_body self w []) as [t r] eqn:Hrun.
  cbn [fst snd] in *. subst r.
  unfold execute_strategy_body in Hrun.
  do 15 run_step Hrun.
  rewrite bind_run in Hrun.
  match type of Hrun with context [wait_for_deposit ?a ?b ?c ?d ?e] =>
    destruct (wait_for_deposit a b c d e) as [tw [[] | e']]; [| discriminate Hrun]
  end.
  do 5 run_step Hrun.
  unfold lift in Hrun. injection Hrun as <- Hok.
  eexists _, _. split; [| split; [eassumption | exact Hok]].
  apply in_or_app. right. left. reflexivity.
Qed.

Lemma not_in_polling (e : event) (l : list event) :
  Forall is_poll_or_sleep l -> e <> EUserState -> e <> ESleep -> ~ In e l.
Proof.
  intros Hall Hu Hs Hin. rewrite Forall_forall in Hall.
  destruct (Hall _ Hin); congruence.
Qed.

Lemma polling_has_no_market_open (l : list event) :
  Forall is_poll_or_sleep l -> attempted_market_open l = false.
Proof.
  intros Hall. unfold attempted_market_open.
  induction Hall as [| e l [-> | ->] _ IH]; [reflexivity | exact IH | exact IH].
Qed.

Lemma in_attempted_market_open (sz : number) (t : list event) :
  In (EMarketOpen sz) t -> attempted_market_open t = true.
Proof.
  intros Hin. unfold attempted_market_open. apply existsb_exists.
  exists (EMarketOpen sz). split; [exact Hin | reflexivity].
Qed.

(** X16: the short is ordered only as the last call of a run in which
    every earlier step was called in order and succeeded: the swap, the
    supply of the swap's minimum-out, the borrow, the deposit of the
    borrowed amount, the wait for its receipt, then only polls and sleeps,
    then the metadata. *)
Theorem hedge_only_after_every_step_succeeded `{PyBuiltins}
    (self : Executor) (w : World) (sz : number) :
  In (EMarketOpen sz) (snd (execute_strategy self w)) ->
  exists amount min_out borrow_amount borrow_usdc tx_hash polling,
    snd (execute_strategy self w) =
      ([EGetEthPrice; ESwapUsdcToEth amount min_out; ESupplyEth min_out;
        EGetReservesData; EBorrowAsset borrow_amount;
        EDepositUsdc borrow_usdc; EWaitForReceipt tx_hash]
       ++ polling ++ [EMeta; EMarketOpen sz])%list
    /\ Forall is_poll_or_sleep polling
    /\ (exists r, swap_usdc_to_eth w amount min_out = Ok r)
    /\ (exists r, supply_eth w min_out = Ok r)
    /\ (exists r, borrow_asset w borrow_amount = Ok r)
    /\ PyNum.int_truediv borrow_amount (10 ^ 6) = Ok borrow_usdc
    /\ deposit_usdc_to_hyperliquid w borrow_usdc = Ok tx_hash
    /\ wait_for_transaction_receipt w tx_hash = Ok tt.
Proof.
  rewrite trace_of_run.
  destruct (execute_strategy_body self w []) as [t r] eqn:Hrun.
  cbn [fst]. intros Hin.
  pose proof (in_attempted_market_open _ _ Hin) as Hatt.
  unfold execute_strategy_body in Hrun.
  do 15 run_step_or Hrun
    ltac:(injection Hrun as <- _; cbn in Hatt; discriminate Hatt).
  rewrite bind_run in Hrun.
  match type of Hrun with context [wait_for_deposit ?a ?b ?c ?d ?e] =>
    destruct (emits_wait_for_deposit is_poll_or_sleep a b
                (or_introl eq_refl) (or_intror eq_refl) c d e)
      as (polling & Htw & Hpolling);
    destruct (wait_for_deposit a b c d e) as [tw [[] | e']]
  end; cbn [fst] in Htw; subst tw.
  all: pose proof (polling_has_no_market_open _ Hpolling) as Hnone;
    unfold attempted_market_open in Hnone, Hatt.
  2: { injection Hrun as <- _. cbn in Hatt. rewrite ?existsb_app in Hatt.
       rewrite Hnone in Hatt. cbn in Hatt. discriminate Hatt. }
  do 4 run_step_or Hrun
    ltac:(injection Hrun as <- _; cbn in Hatt; rewrite ?existsb_app in Hatt;
          rewrite Hnone in Hatt; cbn in Hatt; discriminate Hatt).
  rewrite bind_call in Hrun. cbn beta iota in Hrun.
  assert (Ht : fst (t, r) = fst (t, r)) by reflexivity.
  rewrite <- Hrun in Ht at 2. clear Hrun.
  destruct (market_open w a14); unfold lift in Ht; cbn [fst] in Ht; subst t.
  all: assert (Hsz : a14 = sz);
    [ apply in_app_or in Hin; destruct Hin as [Hin | [Hin | []]];
      [ apply in_attempted_market_open in Hin;
        unfold attempted_market_open in Hin; cbn in Hin;
        rewrite ?existsb_app in Hin; rewrite Hnone in Hin; cbn in Hin;
        discriminate Hin
      | injection Hin as ->; reflexivity ]
    | subst a14;
      exists a, a1, a7, a8, a10, polling;
      split; [cbn; rewrite <- app_assoc; reflexivity |];
      split; [exact Hpolling |];
      destruct a11;
      repeat split; try assumption; eexists; eassumption ].
Qed.

(** X17: in every run, whatever is deposited to the exchange is the
    amount of a borrow that succeeded just before, converted from
    micro-USDC. *)
Theorem deposit_is_borrowed_amount `{PyBuiltins} (self : Executor) (w : World)
    (d : float) :
  In (EDepositUsdc d) (snd (execute_strategy self w)) ->
  exists borrow_amount r,
    In (EBorrowAsset borrow_amount) (snd (execute_strategy self w))
    /\ borrow_asset w borrow_amount = Ok r
    /\ PyNum.int_truediv borrow_amount (10 ^ 6) = Ok d.
Proof.
  rewrite trace_of_run.
  destruct (execute_strategy_body self w []) as [t r] eqn:Hrun.
  cbn [fst]. intros Hin.
  unfold execute_strategy_body in Hrun.
  do 13 run_step_or Hrun
    ltac:(injection Hrun as <- _; cbn in Hin; exfalso; intuition discriminate).
  rewrite bind_call in Hrun. cbn beta iota in Hrun.
  destruct (deposit_usdc_to_hyperliquid w a8) as [tx_hash | e].
  - match type of Hrun with ?rest ?t0 = _ =>
      assert (Hrest : emits (fun e => ~ is_deposit e) rest);
      [| destruct (Hrest t0) as (added & Ht & Hadded) ]
    end.
    { repeat first
        [ apply emits_lift
        | apply emits_call; cbn; tauto
        | apply emits_wait_for_deposit; cbn; tauto
        | apply emits_bind; [| intro] ]. }
    rewrite Hrun in Ht. cbn [fst] in Ht. subst t.
    exists a7, a9. split; [| split; [assumption |]].
    + apply in_or_app. left. cbn. tauto.
    + apply in_app_or in Hin. destruct Hin as [Hin | Hin].
      * cbn in Hin.
        repeat (destruct Hin as [Hin | Hin]; [try discriminate Hin |]);
          try contradiction.
        injection Hin as <-. assumption.
      * exfalso. rewrite Forall_forall in Hadded. apply (Hadded _ Hin). exact I.
  - injection Hrun as <- _.
    exists a7, a9. split; [| split; [assumption |]].
    + cbn. tauto.
    + cbn in Hin.
      repeat (destruct Hin as [Hin | Hin]; [try discriminate Hin |]);
        try contradiction.
      injection Hin as <-. assumption.
Qed.

(** X18: the polling loop stops at the first poll that reports enough
    margin: after [j] polls that fell short, each followed by a sleep, the
    next poll ends the loop normally, provided it comes within the retry
    budget. *)
Theorem polling_stops_at_first_sufficient_margin `{PyBuiltins} (w : World)
    (borrow_amount : Z) (needed : float) (j : nat) :
  PyNum.int_truediv borrow_amount (10 ^ 6) = Ok needed ->
  forall k,
    (forall i, (i < j)%nat ->
       exists hl_balance v,
         user_state w (k + i) = Ok hl_balance
         /\ reported_account_value hl_balance = Ok v
         /\ (needed <=? v)%float = false) ->
    (exists hl_balance v,
       user_state w (k + j) = Ok hl_balance
       /\ reported_account_value hl_balance = Ok v
       /\ (needed <=? v)%float = true) ->
    forall (n : nat) (t : list event),
      (j < n)%nat ->
      wait_for_deposit w borrow_amount n k t =
      ((t ++ List.concat (repeat [EUserState; ESleep] j) ++ [EUserState])%list,
       Ok tt).
Proof.
  intros Hneeded.
  induction j as [| j IH]; intros k Hshort Henough n t Hn.
  - destruct n as [| n]; [lia |]. cbn [wait_for_deposit].
    destruct Henough as (hl_balance & v & Hb & Hv & Hle).
    rewrite Nat.add_0_r in Hb.
    rewrite bind_call, Hb. cbn beta iota.
    rewrite bind_lift, Hv. cbn beta iota.
    rewrite bind_lift, Hneeded. cbn beta iota.
    rewrite Hle. reflexivity.
  - destruct n as [| n]; [lia |]. cbn [wait_for_deposit].
    destruct (Hshort 0%nat ltac:(lia)) as (hl_balance & v & Hb & Hv & Hlt).
    rewrite Nat.add_0_r in Hb.
    rewrite bind_call, Hb. cbn beta iota.
    rewrite bind_lift, Hv. cbn beta iota.
    rewrite bind_lift, Hneeded. cbn beta iota.
    rewrite Hlt.
    rewrite bind_call. cbn beta iota.
    rewrite (IH (S k)).
    + cbn [repeat List.concat]. rewrite <- !app_assoc. reflexivity.
    + intros i Hi. replace (S k + i)%nat with (k + S i)%nat by lia.
      apply Hshort. lia.
    + replace (S k + j)%nat with (k + S j)%nat by lia. exact Henough.
    + lia.
Qed.
End ExecutorRuns.

Lemma deposit_is_borrowed_amount_example :
  exists borrow_amount r,
    In (Executor.EBorrowAsset borrow_amount)
       (snd (Executor.execute_strategy (H := Reference.builtins)
               Examples.executor Examples.world_ok))
    /\ Executor.borrow_asset Examples.world_ok borrow_amount = Ok r
    /\ PyNum.int_truediv borrow_amount (10 ^ 6) = Ok 39.8%float.
Proof.
  apply (deposit_is_borrowed_amount (H := Reference.builtins)
           Examples.executor Examples.world_ok 39.8%float).
  vm_compute. do 5 right. left. reflexivity.
Defined.

Lemma true_means_hedge_acknowledged_example :
  exists sz order_result,
    In (Executor.EMarketOpen sz)
       (snd (Executor.execute_strategy (H := Reference.builtins)
               Examples.executor Examples.world_ok))
    /\ Executor.market_open Examples.world_ok sz = Ok order_result
    /\ Executor.order_succeeded order_result = Ok true.
Proof.
  apply (true_means_hedge_acknowledged (H := Reference.builtins)
           Examples.executor Examples.world_ok).
  vm_compute. reflexivity.
Defined.

Lemma hedge_only_after_every_step_succeeded_example :
  exists amount min_out borrow_amount borrow_usdc tx_hash polling,
    snd (Executor.execute_strategy (H := Reference.builtins)
           Examples.executor Examples.world_ok) =
      ([Executor.EGetEthPrice; Executor.ESwapUsdcToEth amount min_out;
        Executor.ESupplyEth min_out; Executor.EGetReservesData;
        Executor.EBorrowAsset borrow_amount;
        Executor.EDepositUsdc borrow_usdc; Executor.EWaitForReceipt tx_hash]
       ++ polling ++ [Executor.EMeta; Executor.EMarketOpen (NFloat 0.0498)])%list
    /\ Forall Executor.is_poll_or_sleep polling
    /\ (exists r, Executor.swap_usdc_to_eth Examples.world_ok amount min_out = Ok r)
    /\ (exists r, Executor.supply_eth Examples.world_ok min_out = Ok r)
    /\ (exists r, Executor.borrow_asset Examples.world_ok borrow_amount = Ok r)
    /\ PyNum.int_truediv borrow_amount (10 ^ 6) = Ok borrow_usdc
    /\ Executor.deposit_usdc_to_hyperliquid Examples.world_ok borrow_usdc = Ok tx_hash
    /\ Executor.wait_for_transaction_receipt Examples.world_ok tx_hash = Ok tt.
Proof.
  apply (hedge_only_after_every_step_succeeded (H := Reference.builtins)
           Examples.executor Examples.world_ok (NFloat 0.0498)).
  vm_compute. do 13 right. left. reflexivity.
Defined.

Lemma polling_stops_example :
  Executor.wait_for_deposit (H := Reference.builtins) Examples.world_ok
    39800000 30 0 [] =
  (([] ++ List.concat (repeat [Executor.EUserState; Executor.ESleep] 2)
       ++ [Executor.EUserState])%list, Ok tt).
Proof.
  apply (polling_stops_at_first_sufficient_margin (H := Reference.builtins)
           Examples.world_ok 39800000 39.8%float 2).
  - vm_compute. reflexivity.
  - intros i Hi. exists (Examples.account "0.0"), 0%float.
    destruct i as [| [| i]]; [| | lia]; repeat split; vm_compute; reflexivity.
  - exists (Examples.account "39.8"), 39.8%float.
    repeat split; vm_compute; reflexivity.
  - lia.
Defined.

Section OrderFacts.
Import Executor.

(** X19: the loop over the order statuses answers True exactly when every
    status carries a fill with its order id, total size and average
    price; a single status without one makes it answer False or raise. *)
Theorem all_filled_iff_every_status_is_a_fill (statuses : list json) :
  all_filled statuses = Ok true <->
  Forall (fun status =>
            exists filled oid total_sz avg_px,
              Py.item status "filled" = Ok filled
              /\ Py.item filled "oid" = Ok oid
              /\ Py.item filled "totalSz" = Ok total_sz
              /\ Py.item filled "avgPx" = Ok avg_px)
         statuses.
Proof.
  induction statuses as [| status rest IH]; cbn [all_filled].
  - split; [constructor | reflexivity].
  - destruct (Py.item status "filled") as [filled | e] eqn:Hf; cbn [res_bind].
    + destruct (Py.item filled "oid") as [oid | e] eqn:Ho; cbn [res_bind].
      * destruct (Py.item filled "totalSz") as [tsz | e] eqn:Ht; cbn [res_bind].
        -- destruct (Py.item filled "avgPx") as [px | e] eqn:Hp; cbn [res_bind].
           ++ rewrite IH. split.
              ** intros Hrest. constructor; [| exact Hrest].
                 exists filled, oid, tsz, px. repeat split; assumption.
              ** intros Hall. inversion Hall; assumption.
           ++ split.
              ** intros Hbad. exfalso.
                 destruct e; try discriminate Hbad.
                 destruct (Py.item status "error"); discriminate Hbad.
              ** intros Hall. inversion Hall as [| ? ? (f & o & t & p & Hf' & _ & _ & Hp') _].
                 rewrite Hf in Hf'. injection Hf' as <-. congruence.
        -- split.
           ++ intros Hbad. exfalso.
              destruct e; try discriminate Hbad.
              destruct (Py.item status "error"); discriminate Hbad.
           ++ intros Hall. inversion Hall as [| ? ? (f & o & t & p & Hf' & _ & Ht' & _) _].
              rewrite Hf in Hf'. injection Hf' as <-. congruence.
      * split.
        -- intros Hbad. exfalso.
           destruct e; try discriminate Hbad.
           destruct (Py.item status "error"); discriminate Hbad.
        -- intros Hall. inversion Hall as [| ? ? (f & o & t & p & Hf' & Ho' & _) _].
           rewrite Hf in Hf'. injection Hf' as <-. congruence.
    + split.
      * intros Hbad. exfalso.
        destruct e; try discriminate Hbad.
        destruct (Py.item status "error"); discriminate Hbad.
      * intros Hall. inversion Hall as [| ? ? (f & o & t & p & Hf' & _) _].
        congruence.
Qed.

End OrderFacts.

(** ** A context message, from the stream to the monitor *)

Section StreamRoundTrip.
Context `{PyBuiltins}.
Import Monitor Stream.

Lemma item_contains (v : json) (k : string) (x : json) :
  Py.item v k = Ok x -> Py.contains v k = Ok true /\ Py.is_dict v = true.
Proof.
  destruct v; cbn; try discriminate.
  destruct (Py.assoc k d); [| discriminate]. intros _. split; reflexivity.
Qed.

Lemma item_get (v : json) (k : string) (x default : json) :
  Py.item v k = Ok x -> Py.get v k default = Ok x.
Proof.
  destruct v; cbn; try discriminate.
  destruct (Py.assoc k d); [| discriminate]. intros [= ->]. reflexivity.
Qed.

(** X20: an activeAssetCtx message for ETH, BTC or SOL whose context
    carries a readable funding rate and mark price is what the monitor
    returns for that coin once [_handle_message] has handled it; the
    tracked set and the set handed to the display are not touched. *)
Theorem context_message_reaches_monitor (self : ProtocolDataManager)
    (message data ctx : json) (s : string) (f mp : float) :
  Py.item message "channel" = Ok (JStr "activeAssetCtx") ->
  Py.item message "data" = Ok data ->
  Py.item data "coin" = Ok (JStr s) ->
  In s context_coins ->
  Py.item data "ctx" = Ok ctx ->
  item_float ctx "funding" = Ok f ->
  item_float ctx "markPx" = Ok mp ->
  let self' := _handle_message registered self message in
  get_funding_rate (position_monitor self') (JStr s) = Ok f
  /\ get_mark_price (position_monitor self') (JStr s) = Ok mp
  /\ positions (position_monitor self') = positions (position_monitor self)
  /\ hl_data self' = hl_data self.
Proof.
  intros Hchannel Hdata Hcoin Hin Hctx Hf Hmp self'. subst self'.
  assert (Hroute : route registered message = Ok (Some (AssetUpdate, data))).
  { unfold route.
    rewrite (item_get _ _ _ JNull Hchannel). cbn [res_bind Py.eq_str].
    rewrite String.eqb_refl.
    destruct (item_contains _ _ _ Hdata) as [-> _]. cbn [res_bind].
    rewrite Hdata. cbn [res_bind].
    destruct (item_contains _ _ _ Hcoin) as [-> ->]. cbn [res_bind].
    destruct (item_contains _ _ _ Hctx) as [-> _]. cbn [res_bind].
    replace (subscribed registered (JStr "activeAssetCtx"))
      with (Ok (Some AssetUpdate)) by reflexivity.
    cbn [res_bind]. rewrite Hcoin. cbn [res_bind].
    assert (Hex : existsb (Py.eq_str (JStr s)) context_coins = true).
    { apply existsb_exists. exists s. split; [exact Hin |].
      cbn. apply String.eqb_refl. }
    rewrite Hex. reflexivity. }
  unfold _handle_message. rewrite Hroute. cbn [invoke].
  unfold _handle_asset_update, update_asset_context.
  rewrite Hcoin. cbn [res_bind]. rewrite Hctx. cbn [res_bind].
  rewrite Hf. cbn [res_bind]. rewrite Hmp. cbn [res_bind].
  cbn. unfold get_funding_rate, get_mark_price. cbn.
  rewrite lookup_set_same_str. repeat split; reflexivity.
Qed.

End StreamRoundTrip.

(** The ETH context of the example, delivered by the stream. *)
Lemma context_message_example :
  let self' := Stream._handle_message (H := Reference.builtins)
                 Stream.registered Stream.initialized
                 Examples.eth_ctx_message in
  Monitor.get_funding_rate (position_monitor self') (JStr "ETH")
    = Ok 0.0000125%float
  /\ Monitor.get_mark_price (position_monitor self') (JStr "ETH")
     = Ok 3100%float
  /\ positions (position_monitor self')
     = positions (position_monitor Stream.initialized)
  /\ hl_data self' = hl_data Stream.initialized.
Proof.
  apply (context_message_reaches_monitor (H := Reference.builtins)
           Stream.initialized Examples.eth_ctx_message Examples.eth_ctx
           (JDict [("funding", JStr "0.0000125"); ("markPx", JStr "3100")])
           "ETH" 0.0000125%float 3100%float).
  - vm_compute. reflexivity.
  - vm_compute. reflexivity.
  - vm_compute. reflexivity.
  - vm_compute. left. reflexivity.
  - vm_compute. reflexivity.
  - vm_compute. reflexivity.
  - vm_compute. reflexivity.
Defined.

(** ** The reserves read by the executor *)

Section ReserveFacts.
Import Reserves.
Variables Raw Details : Type.
Variable asset_of : Raw -> string.
Variable symbol_of : Raw -> string.
Variable format_details : Raw -> res Details.

Lemma format_reserves_invariant (reserves_data : list Raw) :
  forall (seen : list string) (acc result : list (FormattedReserve Details)),
    format_reserves asset_of symbol_of format_details reserves_data seen acc
    = Ok result ->
    NoDup (map reserve_symbol acc) ->
    (forall f, In f acc -> In (reserve_symbol f) seen) ->
    Forall (fun f => reserve_symbol f = "USDC" ->
                     lower (reserve_asset f) = lower NATIVE_USDC) acc ->
    NoDup (map reserve_symbol result)
    /\ Forall (fun f => reserve_symbol f = "USDC" ->
                        lower (reserve_asset f) = lower NATIVE_USDC) result.
Proof.
  induction reserves_data as [| reserve rest IH];
    intros seen acc result Hrun Hnodup Hseen Husdc; cbn [format_reserves] in Hrun.
  - injection Hrun as <-. split; assumption.
  - destruct (foreign_usdc asset_of symbol_of reserve) eqn:Hforeign;
      [apply (IH _ _ _ Hrun); assumption |].
    destruct (existsb (String.eqb (symbol_of reserve)) seen) eqn:Hknown;
      [apply (IH _ _ _ Hrun); assumption |].
    destruct (format_details reserve) as [details | e]; cbn [res_bind] in Hrun;
      [| discriminate Hrun].
    apply (IH _ _ _ Hrun).
    + rewrite map_app. cbn [map reserve_symbol].
      apply NoDup_app; [exact Hnodup | repeat constructor; intros [] | ].
      intros sym Hin [<- | []].
      apply in_map_iff in Hin. destruct Hin as (f & Hsym & Hf).
      apply Hseen in Hf. rewrite Hsym in Hf.
      assert (Ht : existsb (String.eqb (symbol_of reserve)) seen = true).
      { apply existsb_exists. exists (symbol_of reserve).
        split; [exact Hf | apply String.eqb_refl]. }
      congruence.
    + intros f Hf. apply in_app_or in Hf. destruct Hf as [Hf | [<- | []]].
      * right. apply Hseen. exact Hf.
      * left. reflexivity.
    + apply Forall_app. split; [exact Husdc |].
      repeat constructor. cbn. intros Hsym.
      unfold foreign_usdc in Hforeign. rewrite Hsym in Hforeign.
      change (String.eqb "USDC" "USDC") with true in Hforeign.
      cbn [andb] in Hforeign.
      apply negb_false_iff in Hforeign. apply String.eqb_eq in Hforeign.
      exact Hforeign.
Qed.

(** X21: the reserves [get_reserves_data] returns have pairwise distinct
    symbols, whatever the data provider lists, so that the executor finds
    at most one WETH entry. *)
Theorem reserve_symbols_are_distinct (reply : res (list Raw)) :
  NoDup (map reserve_symbol
           (get_reserves_data asset_of symbol_of format_details reply)).
Proof.
  unfold get_reserves_data.
  destruct reply as [reserves_data | e]; cbn [res_bind]; [| constructor].
  destruct (format_reserves asset_of symbol_of format_details reserves_data [] [])
    as [result | e] eqn:Hrun; [| constructor].
  apply (format_reserves_invariant _ _ _ _ Hrun);
    [constructor | intros f [] | constructor].
Qed.

(** X22: a reserve returned under the symbol USDC is the native USDC: its
    address is that of [NATIVE_USDC], up to the case of the letters. *)
Theorem usdc_reserve_is_native (reply : res (list Raw)) :
  Forall (fun f => reserve_symbol f = "USDC" ->
                   lower (reserve_asset f) = lower NATIVE_USDC)
         (get_reserves_data asset_of symbol_of format_details reply).
Proof.
  unfold get_reserves_data.
  destruct reply as [reserves_data | e]; cbn [res_bind]; [| constructor].
  destruct (format_reserves asset_of symbol_of format_details reserves_data [] [])
    as [result | e] eqn:Hrun; [| constructor].
  apply (format_reserves_invariant _ _ _ _ Hrun);
    [constructor | intros f [] | constructor].
Qed.

End ReserveFacts.

(** The reply of the example: the bridged USDC and the second WETH are
    left out. *)
Lemma provider_reply_selection :
  map (fun f => (Reserves.reserve_asset f, Reserves.reserve_symbol f))
      (Reserves.get_reserves_data fst snd (fun _ => Ok tt)
         (Ok Examples.provider_reply))
  = [("0x82aF49447D8a07e3bd95BD0d56f35241523fBab1", "WETH");
     ("0xaf88d065e77c8cC2239327C5EDb3A432268e5831", "USDC")].
Proof. vm_compute. reflexivity. Qed.

(** ** What the getters return after a snapshot *)

Section GetterFacts.
Context `{PyBuiltins}.
Import Monitor.

Lemma lookup_set_other_key {V} (s : string) (k : json) (v : V) (d : Py.dict V) :
  k <> JStr s ->
  Py.lookup (JStr s) (Py.set k v d) = Py.lookup (JStr s) d.
Proof.
  intros Hneq.
  assert (Hk : Py.key_eqb (JStr s) k = false).
  { destruct (Py.key_eqb (JStr s) k) eqn:E; [| reflexivity].
    apply key_eqb_str_inv in E. congruence. }
  induction d as [| [k0 v0] d IH]; cbn [Py.set Py.lookup].
  - rewrite Hk. reflexivity.
  - destruct (Py.key_eqb k k0) eqn:Hkk0; cbn [Py.lookup].
    + destruct (Py.key_eqb (JStr s) k0) eqn:Hsk0; [| reflexivity].
      apply key_eqb_str_inv in Hsk0. subst k0.
      exfalso. apply Hneq.
      destruct k; cbn in Hkk0; try discriminate Hkk0.
      apply String.eqb_eq in Hkk0. subst. reflexivity.
    + rewrite IH. reflexivity.
Qed.

Lemma process_positions_keeps_lookup (self : PositionMonitor) (ch_state : json)
    (s : string) (l : list json) :
  (forall p c i, In p l ->
     build_position self ch_state p = Ok (Some (c, i)) -> c <> JStr s) ->
  forall acc,
    Py.lookup (JStr s) (fst (process_positions self ch_state l acc))
    = Py.lookup (JStr s) acc.
Proof.
  induction l as [| position l IH]; intros Hother acc; cbn [process_positions].
  - reflexivity.
  - destruct (build_position self ch_state position)
      as [[[c info] |] | e] eqn:Hb.
    + rewrite IH; [| intros p c' i Hp; apply Hother; right; exact Hp].
      apply lookup_set_other_key.
      apply (Hother position c info); [left; reflexivity | exact Hb].
    + apply IH. intros p c' i Hp. apply Hother. right. exact Hp.
    + reflexivity.
Qed.

(** X23: after a snapshot that is processed to the end, the entry the
    getters return for a coin is the one built from the last position
    reported for that coin: the full entry, its funding and its risk
    metrics, each under the coin asked for. *)
Theorem last_report_of_a_coin_is_returned (self : PositionMonitor)
    (ch_state : json) (before : list json) (position : json)
    (after : list json) (s : string) (info : PositionInfo) :
  clearinghouse (latest_state self) = Some ch_state ->
  (let? ap := Py.get ch_state "assetPositions" (JList []) in Py.iter ap)
  = Ok (before ++ position :: after)%list ->
  snd (process_position_data self) = Ok tt ->
  build_position self ch_state position = Ok (Some (JStr s, info)) ->
  (forall p c i, In p after ->
     build_position self ch_state p = Ok (Some (c, i)) -> c <> JStr s) ->
  s <> EmptyString ->
  let monitor := fst (process_position_data self) in
  get_position_info monitor (JStr s) = Ok [(JStr s, info)]
  /\ get_funding_info monitor (JStr s) = Ok [(JStr s, funding info)]
  /\ get_risk_metrics monitor (JStr s) = Ok [(JStr s, risk_metrics info)].
Proof.
  intros Hch Hl Hok Hbuilt Hlast Hs monitor. subst monitor.
  pose proof (process_position_data_cases self) as Hc.
  rewrite Hch, Hl in Hc. rewrite Hc in Hok |- *. cbn [fst snd] in *.
  assert (Hlookup :
    Py.lookup (JStr s)
      (fst (process_positions self ch_state (before ++ position :: after) []))
    = Some info).
  { rewrite process_positions_app in Hok |- *.
    destruct (process_positions self ch_state before []) as [acc [[] | e]].
    - cbn [process_positions] in Hok |- *. rewrite Hbuilt in Hok |- *.
      rewrite (process_positions_keeps_lookup _ _ _ _ Hlast).
      apply lookup_set_same_str.
    - cbn [snd] in Hok. discriminate Hok. }
  assert (Htruthy : Py.truthy (JStr s) = true).
  { cbn. destruct (String.eqb_spec s EmptyString); [contradiction | reflexivity]. }
  unfold get_position_info, get_funding_info, get_risk_metrics.
  rewrite Htruthy. cbn [Py.hashable positions with_positions].
  rewrite Hlookup. repeat split; reflexivity.
Qed.

End GetterFacts.

(** The getters on the ETH position of the example, which is reported
    first. *)
Lemma last_report_example :
  let monitor := fst (Monitor.process_position_data (H := Reference.builtins)
                        Examples.monitor) in
  Monitor.get_position_info monitor (JStr "ETH")
    = Ok [(JStr "ETH", Examples.eth_info)]
  /\ Monitor.get_funding_info monitor (JStr "ETH")
     = Ok [(JStr "ETH", funding Examples.eth_info)]
  /\ Monitor.get_risk_metrics monitor (JStr "ETH")
     = Ok [(JStr "ETH", risk_metrics Examples.eth_info)].
Proof.
  apply (last_report_of_a_coin_is_returned (H := Reference.builtins)
           Examples.monitor
           (Examples.clearinghouse_state
              [Examples.eth_long; Examples.sol_closed; Examples.btc_short])
           [] Examples.eth_long [Examples.sol_closed; Examples.btc_short]
           "ETH" Examples.eth_info).
  - vm_compute. reflexivity.
  - vm_compute. reflexivity.
  - vm_compute. reflexivity.
  - vm_compute. reflexivity.
  - intros p c i [<- | [<- | []]] Hb; vm_compute in Hb.
    + discriminate Hb.
    + injection Hb as <- _. discriminate.
  - discriminate.
Defined.
